(** * The in-memory fallback store of the Mergington High School API

    A shallow embedding of [src/backend/database.py]: the class
    [MockCollection] ([find], [find_one], [insert_one], [update_one],
    [count_documents], [_matches_query]), the seeding routine
    [init_database] and the seed data.

    Python objects are modelled as follows.
    - Documents are Python [dict]s keyed by field names: insertion-ordered
      association lists from strings to values.
    - Values are the JSON-like trees the program stores: [None], booleans,
      integers, strings, lists and nested dicts.  Strings are byte strings
      (UTF-8), whose bytewise order is Python's code-point order.
    - A record body is a mutable dict object that the collection holds by
      reference: bodies live in a heap indexed by locations, and
      [_data] maps a key to the location of its body.  Values nested in a
      body are owned by that body: a sequence is held by one field of one
      record, so an in-place [append] or [remove] is the writing of the
      new sequence into that field.  What a call does to a sequence is
      stated by what the field reads afterwards.
    - A Python exception is the [Raise] outcome of a call; the heap a call
      leaves behind is returned in both outcomes. *)

From Stdlib Require Import ZArith String Ascii List Bool Lia.
From stdpp Require Import base option list gmap strings.

Import ListNotations.
Local Open Scope string_scope.
Local Open Scope list_scope.
Local Open Scope Z_scope.

(** ** Insertion-ordered dictionaries *)

Module ODict.
Section odict.
Context {K V : Type} (eqb : K -> K -> bool).

(** [d[k]] / [k in d]: the entry whose key equals [k]. *)
Fixpoint get (d : list (K * V)) (k : K) : option V :=
  match d with
  | [] => None
  | (k', v) :: d' => if eqb k' k then Some v else get d' k
  end.

Definition mem (d : list (K * V)) (k : K) : bool :=
  match get d k with Some _ => true | None => false end.

(** [d[k] = v]: an existing key keeps its position, a new key goes last. *)
Fixpoint set (d : list (K * V)) (k : K) (v : V) : list (K * V) :=
  match d with
  | [] => [(k, v)]
  | (k', v') :: d' =>
      if eqb k' k then (k', v) :: d' else (k', v') :: set d' k v
  end.

(** [d.pop(k)]: what is left of [d], the entries under the other keys. *)
Fixpoint pop (d : list (K * V)) (k : K) : list (K * V) :=
  match d with
  | [] => []
  | (k', v) :: d' => if eqb k' k then pop d' k else (k', v) :: pop d' k
  end.

(** [{**a, **b}]: the entries of [b] written into [a] in order. *)
Definition merge (a b : list (K * V)) : list (K * V) :=
  fold_left (fun acc kv => set acc (fst kv) (snd kv)) b a.
End odict.
End ODict.

(** ** Python values *)

#[warnings="-register-all"]
Inductive value : Type :=
| VNone
| VBool (b : bool)
| VInt (z : Z)
| VStr (s : string)
| VList (l : list value)
| VDict (d : list (string * value)).

Abbreviation dict := (list (string * value)).

Definition dict_get : dict -> string -> option value := ODict.get String.eqb.
Definition dict_mem : dict -> string -> bool := ODict.mem String.eqb.
Definition dict_set : dict -> string -> value -> dict := ODict.set String.eqb.
Definition dict_pop : dict -> string -> dict := ODict.pop String.eqb.
Definition dict_merge : dict -> dict -> dict := ODict.merge String.eqb.

(** Exceptions the modelled operations can raise.  [SystemError] is not
    raised by the program: it reports a reference to a location the heap
    does not hold, which no Python program can form. *)
Inductive exn : Type :=
| TypeError
| AttributeError
| KeyError
| SystemError.

Inductive result (A : Type) : Type :=
| Ok (a : A)
| Raise (e : exn).
Arguments Ok {A} a.
Arguments Raise {A} e.

Definition bind {A B : Type} (r : result A) (k : A -> result B) : result B :=
  match r with
  | Ok a => k a
  | Raise e => Raise e
  end.

Notation "'do!' x ':=' r 'in' k" := (bind r (fun x => k))
  (at level 10, x name, r at level 100, k at level 200).

(** The numeric reading of a value, shared by [bool] and [int]
    ([True == 1], [False == 0]). *)
Definition as_int (v : value) : option Z :=
  match v with
  | VBool b => Some (if b then 1 else 0)
  | VInt z => Some z
  | _ => None
  end.

(** Python's [==] on the modelled values: numbers by value, strings and
    lists elementwise, dicts as unordered mappings. *)
Fixpoint py_eq (a b : value) : bool :=
  match a, b with
  | VNone, VNone => true
  | VStr s, VStr t => String.eqb s t
  | VBool x, _ =>
      match as_int b with Some z => Z.eqb (if x then 1 else 0) z | None => false end
  | VInt x, _ =>
      match as_int b with Some z => Z.eqb x z | None => false end
  | VList la, VList lb =>
      (fix go (la lb : list value) : bool :=
         match la, lb with
         | [], [] => true
         | x :: la', y :: lb' => py_eq x y && go la' lb'
         | _, _ => false
         end) la lb
  | VDict da, VDict db =>
      Nat.eqb (length da) (length db) &&
      (fix all (da : dict) : bool :=
         match da with
         | [] => true
         | (k, v) :: da' =>
             match dict_get db k with
             | Some w => py_eq v w
             | None => false
             end && all da'
         end) da
  | _, _ => false
  end.

(** [hash(v)] succeeds: lists and dicts are unhashable. *)
Definition hashable (v : value) : bool :=
  match v with
  | VList _ | VDict _ => false
  | _ => true
  end.

(** Substring test, Python's [t in s] on strings. *)
Fixpoint substringb (t s : string) : bool :=
  String.prefix t s ||
  match s with
  | EmptyString => false
  | String _ s' => substringb t s'
  end.

(** [item in container]. *)
Definition py_contains (container item : value) : result bool :=
  match container with
  | VDict d =>
      match item with
      | VStr k => Ok (dict_mem d k)
      | VList _ | VDict _ => Raise TypeError
      | _ => Ok false
      end
  | VList l => Ok (existsb (fun x => py_eq x item) l)
  | VStr s =>
      match item with
      | VStr t => Ok (substringb t s)
      | _ => Raise TypeError
      end
  | _ => Raise TypeError
  end.

(** [container[key]] for the string keys the program subscripts with. *)
Definition py_getitem (container : value) (key : string) : result value :=
  match container with
  | VDict d =>
      match dict_get d key with
      | Some v => Ok v
      | None => Raise KeyError
      end
  | _ => Raise TypeError
  end.

(** [a < b]: numbers, strings, and lists lexicographically; any other
    pairing is a [TypeError]. *)
Fixpoint py_lt (a b : value) : result bool :=
  match a, b with
  | VStr s, VStr t => Ok (String.ltb s t)
  | VBool _, (VBool _ | VInt _) | VInt _, (VBool _ | VInt _) =>
      match as_int a, as_int b with
      | Some x, Some y => Ok (Z.ltb x y)
      | _, _ => Raise TypeError
      end
  | VList la, VList lb =>
      (fix go (la lb : list value) : result bool :=
         match la, lb with
         | [], [] => Ok false
         | [], _ :: _ => Ok true
         | _ :: _, [] => Ok false
         | x :: la', y :: lb' => if py_eq x y then go la' lb' else py_lt x y
         end) la lb
  | _, _ => Raise TypeError
  end.

(** [a > b], the reflected comparison. *)
Definition py_gt (a b : value) : result bool := py_lt b a.

(** [l.remove(x)] on a list that contains [x]: the first element equal to
    [x] goes, the others stay in place. *)
Fixpoint list_remove (x : value) (l : list value) : list value :=
  match l with
  | [] => []
  | y :: l' => if py_eq y x then l' else y :: list_remove x l'
  end.

(** A UTF-8 continuation byte, [10xxxxxx]. *)
Definition is_continuation (c : ascii) : bool :=
  match c with
  | Ascii _ _ _ _ _ _ b6 b7 => b7 && negb b6
  end.

(** The characters of a string from the right: the continuation bytes
    still waiting for their lead byte, and the characters after them. *)
Fixpoint split_chars (s : string) : string * list value :=
  match s with
  | EmptyString => (EmptyString, [])
  | String c s' =>
      let (tail, rest) := split_chars s' in
      if is_continuation c then (String c tail, rest)
      else (EmptyString, VStr (String c tail) :: rest)
  end.

(** [for x in s] on a string: one one-character string per code point, a
    lead byte with the continuation bytes that follow it. *)
Definition chars (s : string) : list value :=
  let (tail, rest) := split_chars s in
  match tail with
  | EmptyString => rest
  | _ => VStr tail :: rest
  end.

(** [for x in v]: the elements a value yields when iterated. *)

Definition py_iter (v : value) : result (list value) :=
  match v with
  | VList l => Ok l
  | VStr s => Ok (chars s)
  | VDict d => Ok (map (fun kv => VStr (fst kv)) d)
  | _ => Raise TypeError
  end.

(** [any(x in container for x in items)], left to right, stopping at the
    first hit. *)
Fixpoint any_in (container : value) (items : list value) : result bool :=
  match items with
  | [] => Ok false
  | x :: rest =>
      do! b := py_contains container x in
      if b then Ok true else any_in container rest
  end.

(** ** The heap of record bodies *)

Abbreviation loc := nat.
Abbreviation heap := (gmap nat dict).

Definition deref (h : heap) (l : loc) : result dict :=
  match h !! l with
  | Some body => Ok body
  | None => Raise SystemError
  end.

(** ** class MockCollection *)

(** [self._data]: record key to the body it refers to, in insertion
    order.  Keys are compared as Python dict keys are, by [==]. *)
Record MockCollection : Type := { _data : list (value * loc) }.

Record InsertResult : Type := { acknowledged : bool }.
Record UpdateResult : Type := { modified_count : Z }.

(** [item_id in self._data] and [self._data[item_id]] in one step: an
    unhashable key is a [TypeError]. *)
Definition data_get (c : MockCollection) (item_id : value) : result (option loc) :=
  if hashable item_id then Ok (ODict.get py_eq (_data c) item_id)
  else Raise TypeError.

(** [{"_id": key, **value}] *)
Definition with_id (key : value) (body : dict) : dict :=
  dict_merge [("_id", key)] body.

(** *** _matches_query *)

(** [isinstance(condition, dict) and op in condition] *)
Definition has_operator (condition : value) (op : string) : bool :=
  match condition with
  | VDict d => dict_mem d op
  | _ => false
  end.

(** ["schedule_details" in value and leaf in value["schedule_details"]],
    for the record body the source calls [value]: the nested value when
    both tests pass. *)
Definition schedule_field (body : dict) (leaf : string) : result (option value) :=
  match dict_get body "schedule_details" with
  | None => Ok None
  | Some sd =>
      do! present := py_contains sd (VStr leaf) in
      if present then Ok (Some sd) else Ok None
  end.

(** One turn of the loop of [_matches_query]: [Ok true] goes on to the
    next condition, [Ok false] is [return False]. *)
Definition match_condition (body : dict) (field : string) (condition : value)
  : result bool :=
  if String.eqb field "schedule_details.days" then
    do! sd := schedule_field body "days" in
    match sd with
    | Some sd =>
        if has_operator condition "$in" then
          do! requested_days := py_getitem condition "$in" in
          do! activity_days := py_getitem sd "days" in
          do! days := py_iter requested_days in
          do! hit := any_in activity_days days in
          Ok hit
        else
          match condition with
          | VStr _ =>
              do! activity_days := py_getitem sd "days" in
              py_contains activity_days condition
          | _ => Ok true
          end
    | None => Ok false
    end
  else if String.eqb field "schedule_details.start_time" then
    do! sd := schedule_field body "start_time" in
    match sd with
    | Some sd =>
        do! activity_start := py_getitem sd "start_time" in
        if has_operator condition "$gte" then
          do! bound := py_getitem condition "$gte" in
          do! early := py_lt activity_start bound in
          Ok (negb early)
        else
          match condition with
          | VStr _ =>
              do! early := py_lt activity_start condition in
              Ok (negb early)
          | _ => Ok true
          end
    | None => Ok false
    end
  else if String.eqb field "schedule_details.end_time" then
    do! sd := schedule_field body "end_time" in
    match sd with
    | Some sd =>
        do! activity_end := py_getitem sd "end_time" in
        if has_operator condition "$lte" then
          do! bound := py_getitem condition "$lte" in
          do! late := py_gt activity_end bound in
          Ok (negb late)
        else
          match condition with
          | VStr _ =>
              do! late := py_gt activity_end condition in
              Ok (negb late)
          | _ => Ok true
          end
    | None => Ok false
    end
  else Ok true.

Fixpoint matches_loop (body : dict) (items : dict) : result bool :=
  match items with
  | [] => Ok true
  | (field, condition) :: rest =>
      do! ok := match_condition body field condition in
      if ok then matches_loop body rest else Ok false
  end.

(** [query.items()] exists on dicts only. *)
Definition _matches_query (body : dict) (query : value) : result bool :=
  match query with
  | VDict q => matches_loop body q
  | _ => Raise AttributeError
  end.

(** *** find

    The generator is represented by the list of records it yields when it
    is driven to the end; an exception raised on the way is the outcome. *)
Fixpoint find_all (h : heap) (items : list (value * loc)) : result (list dict) :=
  match items with
  | [] => Ok []
  | (key, l) :: rest =>
      do! body := deref h l in
      do! tl := find_all h rest in
      Ok (with_id key body :: tl)
  end.

Fixpoint find_matching (h : heap) (query : value) (items : list (value * loc))
  : result (list dict) :=
  match items with
  | [] => Ok []
  | (key, l) :: rest =>
      do! body := deref h l in
      do! hit := _matches_query body query in
      do! tl := find_matching h query rest in
      Ok (if hit then with_id key body :: tl else tl)
  end.

Definition find (h : heap) (c : MockCollection) (query : value) : result (list dict) :=
  match query with
  | VNone => find_all h (_data c)
  | _ => find_matching h query (_data c)
  end.

(** *** find_one *)
Definition find_one (h : heap) (c : MockCollection) (query : value)
  : result (option dict) :=
  match query with
  | VDict q =>
      match dict_get q "_id" with
      | Some item_id =>
          do! found := data_get c item_id in
          match found with
          | Some l =>
              do! body := deref h l in
              Ok (Some (with_id item_id body))
          | None => Ok None
          end
      | None => Ok None
      end
  | _ => Ok None
  end.

(** *** insert_one

    [document] is the caller's dict object, passed by reference.  The call
    returns the heap and the collection it leaves behind. *)
Definition insert_one (h : heap) (c : MockCollection) (document : loc)
  : result InsertResult * heap * MockCollection :=
  match h !! document with
  | None => (Raise SystemError, h, c)
  | Some d =>
      match dict_get d "_id" with
      | Some item_id =>
          let h' := <[document := dict_pop d "_id"]> h in
          if hashable item_id then
            (Ok {| acknowledged := true |}, h',
             {| _data := ODict.set py_eq (_data c) item_id document |})
          else (Raise TypeError, h', c)
      | None => (Ok {| acknowledged := false |}, h, c)
      end
  end.

(** *** count_documents *)
Definition count_documents (c : MockCollection) (query : value) : Z :=
  Z.of_nat (length (_data c)).

(** *** update_one *)

(** [v.items()] exists on dicts only. *)
Definition py_items (v : value) : result dict :=
  match v with
  | VDict d => Ok d
  | _ => Raise AttributeError
  end.

(** The [$push] loop over [update["$push"].items()], run on the record
    body; the body reached is returned also when a turn raises. *)
Fixpoint push_loop (body : dict) (items : dict) : result unit * dict :=
  match items with
  | [] => (Ok tt, body)
  | (field, v) :: rest =>
      match dict_get body field with
      | Some (VList l) => push_loop (dict_set body field (VList (l ++ [v]))) rest
      | Some _ => (Raise AttributeError, body)
      | None => push_loop (dict_set body field (VList [v])) rest
      end
  end.

(** The [$pull] loop over [update["$pull"].items()]. *)
Fixpoint pull_loop (body : dict) (items : dict) : result unit * dict :=
  match items with
  | [] => (Ok tt, body)
  | (field, v) :: rest =>
      match dict_get body field with
      | Some cur =>
          match py_contains cur v with
          | Ok true =>
              match cur with
              | VList l => pull_loop (dict_set body field (VList (list_remove v l))) rest
              | _ => (Raise AttributeError, body)
              end
          | Ok false => pull_loop body rest
          | Raise e => (Raise e, body)
          end
      | None => pull_loop body rest
      end
  end.

(** [if op in update: for field, value in update[op].items(): ...] *)
Definition clause (op : string) (loop : dict -> dict -> result unit * dict)
    (update : value) (body : dict) : result unit * dict :=
  match py_contains update (VStr op) with
  | Ok true =>
      match (do! arg := py_getitem update op in py_items arg) with
      | Ok items => loop body items
      | Raise e => (Raise e, body)
      end
  | Ok false => (Ok tt, body)
  | Raise e => (Raise e, body)
  end.

(** Both clauses in source order on one record body. *)
Definition apply_update (update : value) (body : dict) : result unit * dict :=
  match clause "$push" push_loop update body with
  | (Ok _, body1) => clause "$pull" pull_loop update body1
  | (Raise e, body1) => (Raise e, body1)
  end.

Definition update_one (h : heap) (c : MockCollection) (query update : value)
  : result UpdateResult * heap :=
  match query with
  | VDict q =>
      match dict_get q "_id" with
      | Some item_id =>
          match data_get c item_id with
          | Ok (Some l) =>
              match h !! l with
              | Some body =>
                  match apply_update update body with
                  | (Ok _, body') =>
                      (Ok {| modified_count := 1 |}, <[l := body']> h)
                  | (Raise e, body') => (Raise e, <[l := body']> h)
                  end
              | None => (Raise SystemError, h)
              end
          | Ok None => (Ok {| modified_count := 0 |}, h)
          | Raise e => (Raise e, h)
          end
      | None => (Ok {| modified_count := 0 |}, h)
      end
  | _ => (Ok {| modified_count := 0 |}, h)
  end.

(** ** Module level: the two collections and the seeding routine *)

(** A new dict object: it takes a location the heap does not use yet. *)
Definition alloc (h : heap) (d : dict) : loc * heap :=
  let l := fresh (dom h) in (l, <[l := d]> h).

(** The module's state: the heap and the two collection objects bound at
    import when no database server answers. *)
Record world : Type := {
  objects : heap;
  activities_collection : MockCollection;
  teachers_collection : MockCollection
}.

(** [MockCollection()] twice, on an empty heap. *)
Definition fresh_world : world :=
  {| objects := ∅;
     activities_collection := {| _data := [] |};
     teachers_collection := {| _data := [] |} |}.

Definition initial_activities : list (string * dict) :=
  [("Chess Club",
    [("description", VStr "Learn strategies and compete in chess tournaments");
     ("schedule", VStr "Mondays and Fridays, 3:15 PM - 4:45 PM");
     ("schedule_details", VDict
        [("days", VList [VStr "Monday"; VStr "Friday"]);
         ("start_time", VStr "15:15");
         ("end_time", VStr "16:45")]);
     ("max_participants", VInt 12);
     ("participants", VList [VStr "michael@mergington.edu"; VStr "daniel@mergington.edu"])]);
   ("Programming Class",
    [("description", VStr "Learn programming fundamentals and build software projects");
     ("schedule", VStr "Tuesdays and Thursdays, 7:00 AM - 8:00 AM");
     ("schedule_details", VDict
        [("days", VList [VStr "Tuesday"; VStr "Thursday"]);
         ("start_time", VStr "07:00");
         ("end_time", VStr "08:00")]);
     ("max_participants", VInt 20);
     ("participants", VList [VStr "emma@mergington.edu"; VStr "sophia@mergington.edu"])]);
   ("Morning Fitness",
    [("description", VStr "Early morning physical training and exercises");
     ("schedule", VStr "Mondays, Wednesdays, Fridays, 6:30 AM - 7:45 AM");
     ("schedule_details", VDict
        [("days", VList [VStr "Monday"; VStr "Wednesday"; VStr "Friday"]);
         ("start_time", VStr "06:30");
         ("end_time", VStr "07:45")]);
     ("max_participants", VInt 30);
     ("participants", VList [VStr "john@mergington.edu"; VStr "olivia@mergington.edu"])]);
   ("Soccer Team",
    [("description", VStr "Join the school soccer team and compete in matches");
     ("schedule", VStr "Tuesdays and Thursdays, 3:30 PM - 5:30 PM");
     ("schedule_details", VDict
        [("days", VList [VStr "Tuesday"; VStr "Thursday"]);
         ("start_time", VStr "15:30");
         ("end_time", VStr "17:30")]);
     ("max_participants", VInt 22);
     ("participants", VList [VStr "liam@mergington.edu"; VStr "noah@mergington.edu"])]);
   ("Basketball Team",
    [("description", VStr "Practice and compete in basketball tournaments");
     ("schedule", VStr "Wednesdays and Fridays, 3:15 PM - 5:00 PM");
     ("schedule_details", VDict
        [("days", VList [VStr "Wednesday"; VStr "Friday"]);
         ("start_time", VStr "15:15");
         ("end_time", VStr "17:00")]);
     ("max_participants", VInt 15);
     ("participants", VList [VStr "ava@mergington.edu"; VStr "mia@mergington.edu"])]);
   ("Art Club",
    [("description", VStr "Explore various art techniques and create masterpieces");
     ("schedule", VStr "Thursdays, 3:15 PM - 5:00 PM");
     ("schedule_details", VDict
        [("days", VList [VStr "Thursday"]);
         ("start_time", VStr "15:15");
         ("end_time", VStr "17:00")]);
     ("max_participants", VInt 15);
     ("participants", VList [VStr "amelia@mergington.edu"; VStr "harper@mergington.edu"])]);
   ("Drama Club",
    [("description", VStr "Act, direct, and produce plays and performances");
     ("schedule", VStr "Mondays and Wednesdays, 3:30 PM - 5:30 PM");
     ("schedule_details", VDict
        [("days", VList [VStr "Monday"; VStr "Wednesday"]);
         ("start_time", VStr "15:30");
         ("end_time", VStr "17:30")]);
     ("max_participants", VInt 20);
     ("participants", VList [VStr "ella@mergington.edu"; VStr "scarlett@mergington.edu"])]);
   ("Math Club",
    [("description", VStr "Solve challenging problems and prepare for math competitions");
     ("schedule", VStr "Tuesdays, 7:15 AM - 8:00 AM");
     ("schedule_details", VDict
        [("days", VList [VStr "Tuesday"]);
         ("start_time", VStr "07:15");
         ("end_time", VStr "08:00")]);
     ("max_participants", VInt 10);
     ("participants", VList [VStr "james@mergington.edu"; VStr "benjamin@mergington.edu"])]);
   ("Debate Team",
    [("description", VStr "Develop public speaking and argumentation skills");
     ("schedule", VStr "Fridays, 3:30 PM - 5:30 PM");
     ("schedule_details", VDict
        [("days", VList [VStr "Friday"]);
         ("start_time", VStr "15:30");
         ("end_time", VStr "17:30")]);
     ("max_participants", VInt 12);
     ("participants", VList [VStr "charlotte@mergington.edu"; VStr "amelia@mergington.edu"])]);
   ("Weekend Robotics Workshop",
    [("description", VStr "Build and program robots in our state-of-the-art workshop");
     ("schedule", VStr "Saturdays, 10:00 AM - 2:00 PM");
     ("schedule_details", VDict
        [("days", VList [VStr "Saturday"]);
         ("start_time", VStr "10:00");
         ("end_time", VStr "14:00")]);
     ("max_participants", VInt 15);
     ("participants", VList [VStr "ethan@mergington.edu"; VStr "oliver@mergington.edu"])]);
   ("Science Olympiad",
    [("description", VStr "Weekend science competition preparation for regional and state events");
     ("schedule", VStr "Saturdays, 1:00 PM - 4:00 PM");
     ("schedule_details", VDict
        [("days", VList [VStr "Saturday"]);
         ("start_time", VStr "13:00");
         ("end_time", VStr "16:00")]);
     ("max_participants", VInt 18);
     ("participants", VList [VStr "isabella@mergington.edu"; VStr "lucas@mergington.edu"])]);
   ("Sunday Chess Tournament",
    [("description", VStr "Weekly tournament for serious chess players with rankings");
     ("schedule", VStr "Sundays, 2:00 PM - 5:00 PM");
     ("schedule_details", VDict
        [("days", VList [VStr "Sunday"]);
         ("start_time", VStr "14:00");
         ("end_time", VStr "17:00")]);
     ("max_participants", VInt 16);
     ("participants", VList [VStr "william@mergington.edu"; VStr "jacob@mergington.edu"])]);
   ("Manga Maniacs",
    [("description", VStr "Explore the fantastic stories of the most interesting characters from Japanese Manga (graphic novels).");
     ("schedule", VStr "Tuesdays, 7:00 PM - 8:30 PM");
     ("schedule_details", VDict
        [("days", VList [VStr "Tuesday"]);
         ("start_time", VStr "19:00");
         ("end_time", VStr "20:30")]);
     ("max_participants", VInt 15);
     ("participants", VList [])])].

Section seeding.
(** [hash_password] wraps Argon2 from an external library; the seeding
    code only stores what it returns. *)
Variable hash_password : string -> string.

Definition initial_teachers : list dict :=
 [[("username", VStr "mrodriguez");
   ("display_name", VStr "Ms. Rodriguez");
   ("password", VStr (hash_password "art123"));
   ("role", VStr "teacher")];
  [("username", VStr "mchen");
   ("display_name", VStr "Mr. Chen");
   ("password", VStr (hash_password "chess456"));
   ("role", VStr "teacher")];
  [("username", VStr "principal");
   ("display_name", VStr "Principal Martinez");
   ("password", VStr (hash_password "admin789"));
   ("role", VStr "admin")]].

(** [for name, details in initial_activities.items():
       activities_collection.insert_one({"_id": name, **details})] *)
Fixpoint insert_activities (h : heap) (c : MockCollection)
    (items : list (string * dict)) : result unit * heap * MockCollection :=
  match items with
  | [] => (Ok tt, h, c)
  | (name, details) :: rest =>
      let (document, h1) := alloc h (with_id (VStr name) details) in
      match insert_one h1 c document with
      | (Ok _, h2, c2) => insert_activities h2 c2 rest
      | (Raise e, h2, c2) => (Raise e, h2, c2)
      end
  end.

(** [for teacher in initial_teachers:
       teachers_collection.insert_one({"_id": teacher["username"], **teacher})] *)
Fixpoint insert_teachers (h : heap) (c : MockCollection)
    (items : list dict) : result unit * heap * MockCollection :=
  match items with
  | [] => (Ok tt, h, c)
  | teacher :: rest =>
      match py_getitem (VDict teacher) "username" with
      | Ok username =>
          let (document, h1) := alloc h (with_id username teacher) in
          match insert_one h1 c document with
          | (Ok _, h2, c2) => insert_teachers h2 c2 rest
          | (Raise e, h2, c2) => (Raise e, h2, c2)
          end
      | Raise e => (Raise e, h, c)
      end
  end.

(** The body of the [try] block of [init_database]. *)
Definition init_database_try (w : world) : result unit * world :=
  let '(r1, h1, acts) :=
    if Z.eqb (count_documents (activities_collection w) (VDict [])) 0
    then insert_activities (objects w) (activities_collection w) initial_activities
    else (Ok tt, objects w, activities_collection w) in
  match r1 with
  | Raise e =>
      (Raise e, {| objects := h1; activities_collection := acts;
                   teachers_collection := teachers_collection w |})
  | Ok _ =>
      let '(r2, h2, teach) :=
        if Z.eqb (count_documents (teachers_collection w) (VDict [])) 0
        then insert_teachers h1 (teachers_collection w) initial_teachers
        else (Ok tt, h1, teachers_collection w) in
      (r2, {| objects := h2; activities_collection := acts;
              teachers_collection := teach |})
  end.

(** [activities_collection._data = initial_activities.copy()]: the keys
    refer to the bodies of the module's own [initial_activities]. *)
Fixpoint share_activities (h : heap) (items : list (string * dict))
  : heap * list (value * loc) :=
  match items with
  | [] => (h, [])
  | (name, details) :: rest =>
      let (l, h1) := alloc h details in
      let (h2, data) := share_activities h1 rest in
      (h2, (VStr name, l) :: data)
  end.

(** [{k: v for k, v in teacher.items() if k != "username"}] *)
Definition without_username (teacher : dict) : dict :=
  List.filter (fun kv => negb (String.eqb (fst kv) "username")) teacher.

(** [teachers_data = {}; for teacher in initial_teachers:
       teachers_data[teacher["username"]] = {...}] *)
Fixpoint strip_teachers (h : heap) (teachers_data : list (value * loc))
    (items : list dict) : result unit * heap * list (value * loc) :=
  match items with
  | [] => (Ok tt, h, teachers_data)
  | teacher :: rest =>
      let (l, h1) := alloc h (without_username teacher) in
      match py_getitem (VDict teacher) "username" with
      | Ok username =>
          if hashable username
          then strip_teachers h1 (ODict.set py_eq teachers_data username l) rest
          else (Raise TypeError, h1, teachers_data)
      | Raise e => (Raise e, h1, teachers_data)
      end
  end.

(** The body of the [except] handler of [init_database]; both
    collections are mock collections, so both have [_data]. *)
Definition init_database_except (w : world) : result unit * world :=
  let (h1, acts) := share_activities (objects w) initial_activities in
  match strip_teachers h1 [] initial_teachers with
  | (Ok _, h2, teachers_data) =>
      (Ok tt, {| objects := h2; activities_collection := {| _data := acts |};
                 teachers_collection := {| _data := teachers_data |} |})
  | (Raise e, h2, _) =>
      (Raise e, {| objects := h2; activities_collection := {| _data := acts |};
                   teachers_collection := teachers_collection w |})
  end.

Definition init_database (w : world) : result unit * world :=
  match init_database_try w with
  | (Ok _, w') => (Ok tt, w')
  | (Raise _, w') => init_database_except w'
  end.
End seeding.

(** * Vocabulary of the statements *)

(** The query [{"_id": k}]. *)
Definition by_id (k : value) : value := VDict [("_id", k)].

(** The updates [{"$push": {f: v}}] and [{"$pull": {f: v}}]. *)
Definition push_update (f : string) (v : value) : value :=
  VDict [("$push", VDict [(f, v)])].
Definition pull_update (f : string) (v : value) : value :=
  VDict [("$pull", VDict [(f, v)])].

(** Field [f] of a record holds a sequence, or the record has no such
    field. *)
Definition sequence_or_absent (body : dict) (f : string) : bool :=
  match dict_get body f with
  | Some (VList _) | None => true
  | Some _ => false
  end.

(** The clause under [op], when the update has one, names fields by a
    dict, and each named field of the record is a sequence or absent. *)
Definition clause_fits (body u : dict) (op : string) : bool :=
  match dict_get u op with
  | None => true
  | Some (VDict items) => forallb (fun kv => sequence_or_absent body (fst kv)) items
  | Some _ => false
  end.

Definition update_fits (body : dict) (update : value) : bool :=
  match update with
  | VDict u => clause_fits body u "$push" && clause_fits body u "$pull"
  | _ => false
  end.

(** A caller issuing several updates against one record, one call after
    the other, stopping at the first that raises. *)
Fixpoint update_each (h : heap) (c : MockCollection) (query : value)
    (updates : list value) : result unit * heap :=
  match updates with
  | [] => (Ok tt, h)
  | u :: rest =>
      match update_one h c query u with
      | (Ok _, h') => update_each h' c query rest
      | (Raise e, h') => (Raise e, h')
      end
  end.

(** A small store used to exercise the statements: one activity with two
    participants, held at location 0 under the key ["Chess Club"]. *)
Definition sample_body : dict :=
  [("max_participants", VInt 12);
   ("participants", VList [VStr "ann"; VStr "bob"; VStr "ann"])].
Definition sample_heap : heap := {[ 0%nat := sample_body ]}.
Definition sample_collection : MockCollection :=
  {| _data := [(VStr "Chess Club", 0%nat)] |}.

(** The record's [schedule_details.<leaf>] field, when it has one. *)
Definition schedule_time (body : dict) (leaf : string) : option value :=
  match dict_get body "schedule_details" with
  | Some (VDict sd) => dict_get sd leaf
  | _ => None
  end.


(** The field paths [_matches_query] knows. *)
Definition recognized (field : string) : bool :=
  String.eqb field "schedule_details.days" ||
  String.eqb field "schedule_details.start_time" ||
  String.eqb field "schedule_details.end_time".

(** [{"schedule_details.days": {"$in": ["Monday"]}}] *)
Definition monday_query : value :=
  VDict [("schedule_details.days", VDict [("$in", VList [VStr "Monday"])])].

(** The seed activity stored under [name], as [find] yields it. *)
Definition seed_record (name : string) : dict :=
  match ODict.get String.eqb initial_activities name with
  | Some details => ("_id", VStr name) :: details
  | None => []
  end.

(** A value that nothing changes in place: [None], a boolean, a number or
    a string. *)
Definition scalar (v : value) : bool :=
  match v with
  | VList _ | VDict _ => false
  | _ => true
  end.

(** The collection holds the records [recs]: key for key, in order, each
    key referring to a location that holds the body. *)
Definition stored (h : heap) (data : list (value * loc))
    (recs : list (value * dict)) : Prop :=
  Forall2 (fun kl kb => fst kl = fst kb /\ h !! snd kl = Some (snd kb)) data recs.

(** The keys [ks], taken in turn, are new to [keys] and to one another. *)
Fixpoint fresh_keys (keys ks : list value) : bool :=
  match ks with
  | [] => true
  | k :: rest =>
      forallb (fun k' => negb (py_eq k' k)) keys && fresh_keys (keys ++ [k]) rest
  end.

(** No field name occurs twice. *)
Fixpoint distinct (ks : list string) : bool :=
  match ks with
  | [] => true
  | k :: rest => negb (existsb (String.eqb k) rest) && distinct rest
  end.

(** A seed document: each field once, no identifier among them. *)
Definition plain_document (d : dict) : bool :=
  distinct (map fst d) && negb (dict_mem d "_id").

(** [teacher["username"]], the key a seed teacher goes under. *)
Definition teacher_key (teacher : dict) : value :=
  match dict_get teacher "username" with
  | Some username => username
  | None => VNone
  end.

(** The seed activities and teachers as keyed records. *)
Definition activity_records : list (value * dict) :=
  map (fun kv => (VStr (fst kv), snd kv)) initial_activities.
Definition teacher_records (hash_password : string -> string)
  : list (value * dict) :=
  map (fun teacher => (teacher_key teacher, teacher))
      (initial_teachers hash_password).

(** * Properties *)

(** ** Dictionaries *)

Section dict_facts.
Implicit Types (d : dict) (k f : string) (v : value).

Lemma dict_get_set_eq d k v : dict_get (dict_set d k v) k = Some v.
Proof.
  unfold dict_get, dict_set.
  induction d as [|[k' v'] d IH]; simpl.
  - now rewrite String.eqb_refl.
  - destruct (String.eqb k' k) eqn:E; simpl; now rewrite E.
Qed.

Lemma dict_get_set_ne d k f v :
  k <> f -> dict_get (dict_set d k v) f = dict_get d f.
Proof.
  intros Hne. unfold dict_get, dict_set.
  induction d as [|[k' v'] d IH]; simpl.
  - destruct (String.eqb k f) eqn:E; [|reflexivity].
    apply String.eqb_eq in E. contradiction.
  - destruct (String.eqb k' k) eqn:E; simpl.
    + apply String.eqb_eq in E. subst k'.
      destruct (String.eqb k f) eqn:E'; [|reflexivity].
      apply String.eqb_eq in E'. contradiction.
    + now rewrite IH.
Qed.

Lemma dict_get_pop_eq d k : dict_get (dict_pop d k) k = None.
Proof.
  unfold dict_get, dict_pop.
  induction d as [|[k' v'] d IH]; simpl; [reflexivity|].
  destruct (String.eqb k' k) eqn:E; simpl; [exact IH|now rewrite E].
Qed.

Lemma dict_get_pop_ne d k f :
  k <> f -> dict_get (dict_pop d k) f = dict_get d f.
Proof.
  intros Hne. unfold dict_get, dict_pop.
  induction d as [|[k' v'] d IH]; simpl; [reflexivity|].
  destruct (String.eqb k' k) eqn:E; simpl.
  - apply String.eqb_eq in E. subst k'.
    destruct (String.eqb k f) eqn:E'; [|exact IH].
    apply String.eqb_eq in E'. contradiction.
  - now rewrite IH.
Qed.

Lemma dict_get_None_keys d k :
  dict_get d k = None <-> ~ In k (map fst d).
Proof.
  unfold dict_get.
  induction d as [|[k' v'] d IH]; simpl; [tauto|].
  destruct (String.eqb k' k) eqn:E.
  - apply String.eqb_eq in E. split; [discriminate|tauto].
  - apply String.eqb_neq in E. tauto.
Qed.

Lemma dict_pop_keys d k f :
  In f (map fst (dict_pop d k)) <-> In f (map fst d) /\ f <> k.
Proof.
  unfold dict_pop.
  induction d as [|[k' v'] d IH]; simpl; [tauto|].
  destruct (String.eqb k' k) eqn:E.
  - apply String.eqb_eq in E. subst k'. rewrite IH.
    split; [tauto|]. intros [[->|H] Hne]; [contradiction|tauto].
  - apply String.eqb_neq in E. simpl. rewrite IH.
    split; [|tauto]. intros [->|[H Hne]]; [split; [tauto|congruence]|tauto].
Qed.

Lemma dict_pop_NoDup d k : List.NoDup (map fst d) -> List.NoDup (map fst (dict_pop d k)).
Proof.
  unfold dict_pop.
  induction d as [|[k' v'] d IH]; simpl; [trivial|].
  intros Hnd. apply List.NoDup_cons_iff in Hnd as [Hnin Hnd].
  destruct (String.eqb k' k); [now apply IH|].
  simpl. apply List.NoDup_cons_iff. split; [|now apply IH].
  intros Hin. apply (dict_pop_keys d k k') in Hin. tauto.
Qed.

Lemma dict_set_fresh d k v :
  ~ In k (map fst d) -> dict_set d k v = d ++ [(k, v)].
Proof.
  unfold dict_set.
  induction d as [|[k' v'] d IH]; simpl; [reflexivity|].
  intros Hnin. destruct (String.eqb k' k) eqn:E.
  - apply String.eqb_eq in E. tauto.
  - rewrite IH; tauto.
Qed.

Lemma dict_merge_fresh a b :
  List.NoDup (map fst b) ->
  (forall k, In k (map fst b) -> ~ In k (map fst a)) ->
  dict_merge a b = a ++ b.
Proof.
  unfold dict_merge, ODict.merge. revert a.
  induction b as [|[k v] b IH]; intros a Hnd Hdis; simpl.
  - now rewrite app_nil_r.
  - apply List.NoDup_cons_iff in Hnd as [Hnin Hnd].
    fold (dict_set a k v). rewrite dict_set_fresh by (apply Hdis; simpl; tauto).
    rewrite IH; [now rewrite <- app_assoc|exact Hnd|].
    intros k' Hk'. rewrite map_app, in_app_iff. simpl.
    intros [Ha|[->|[]]]; [|contradiction].
    apply (Hdis k'); simpl; tauto.
Qed.

(** A record read back: the key first, then the body as stored. *)
Lemma with_id_cons key body :
  List.NoDup (map fst body) -> dict_get body "_id" = None ->
  with_id key body = ("_id", key) :: body.
Proof.
  intros Hnd Hid. unfold with_id.
  rewrite dict_merge_fresh; [reflexivity|exact Hnd|].
  intros k Hk [<-|[]]. now apply dict_get_None_keys in Hid.
Qed.
End dict_facts.

(** ** Record keys *)

Lemma py_eq_refl_hashable (k : value) : hashable k = true -> py_eq k k = true.
Proof.
  destruct k as [|b|z|s|l|d]; simpl; try discriminate; intros _.
  - reflexivity.
  - destruct b; reflexivity.
  - apply Z.eqb_refl.
  - apply String.eqb_refl.
Qed.

Lemma data_get_set (data : list (value * loc)) (k : value) (l : loc) :
  hashable k = true ->
  data_get {| _data := ODict.set py_eq data k l |} k = Ok (Some l).
Proof.
  intros Hk. unfold data_get. rewrite Hk. simpl. f_equal.
  induction data as [|[k' l'] data IH]; simpl.
  - now rewrite py_eq_refl_hashable.
  - destruct (py_eq k' k) eqn:E; simpl; now rewrite E.
Qed.

(** ** insert_one *)

Lemma insert_one_present (h : heap) (c : MockCollection) (document : loc)
    (d : dict) (k : value) :
  h !! document = Some d -> dict_get d "_id" = Some k -> hashable k = true ->
  insert_one h c document =
    (Ok {| acknowledged := true |},
     <[document := dict_pop d "_id"]> h,
     {| _data := ODict.set py_eq (_data c) k document |}).
Proof.
  intros Hd Hk Hh. unfold insert_one. now rewrite Hd, Hk, Hh.
Qed.

(** C2: a document [d] with identifier [k], once inserted, is read back by
    [find_one({"_id": k})] as the identifier followed by the other fields
    of [d]: field for field the record is [d]. *)
Theorem insert_one_then_find_one (h : heap) (c : MockCollection)
    (document : loc) (d : dict) (k : value) :
  h !! document = Some d ->
  List.NoDup (map fst d) ->
  dict_get d "_id" = Some k ->
  hashable k = true ->
  exists h' c' r,
    insert_one h c document = (Ok {| acknowledged := true |}, h', c') /\
    find_one h' c' (by_id k) = Ok (Some r) /\
    r = ("_id", k) :: dict_pop d "_id" /\
    forall f, dict_get r f = dict_get d f.
Proof.
  intros Hd Hnd Hk Hh.
  eexists _, _, _. split; [exact (insert_one_present h c document d k Hd Hk Hh)|].
  assert (Hr : with_id k (dict_pop d "_id") = ("_id", k) :: dict_pop d "_id").
  { apply with_id_cons; [now apply dict_pop_NoDup|apply dict_get_pop_eq]. }
  split; [|split; [reflexivity|]].
  - unfold find_one, by_id. cbn [dict_get ODict.get].
    rewrite String.eqb_refl, data_get_set by exact Hh. cbn [bind].
    unfold deref. rewrite lookup_insert_eq. cbn [bind]. now rewrite Hr.
  - intros f. change (dict_get (("_id", k) :: dict_pop d "_id") f)
      with (if String.eqb "_id" f then Some k else dict_get (dict_pop d "_id") f).
    destruct (String.eqb "_id" f) eqn:E.
    + apply String.eqb_eq in E. now subst f.
    + apply String.eqb_neq in E. now apply dict_get_pop_ne.
Qed.

Lemma insert_one_then_find_one_witness :
  exists h' c' r,
    insert_one {[ 0%nat := [("name", VStr "x"); ("_id", VStr "k")] ]}
               {| _data := [] |} 0%nat
      = (Ok {| acknowledged := true |}, h', c') /\
    find_one h' c' (by_id (VStr "k")) = Ok (Some r) /\
    r = ("_id", VStr "k") :: dict_pop [("name", VStr "x"); ("_id", VStr "k")] "_id" /\
    forall f, dict_get r f = dict_get [("name", VStr "x"); ("_id", VStr "k")] f.
Proof.
  apply (insert_one_then_find_one
           {[ 0%nat := [("name", VStr "x"); ("_id", VStr "k")] ]}
           {| _data := [] |} 0%nat
           [("name", VStr "x"); ("_id", VStr "k")] (VStr "k")).
  - reflexivity.
  - repeat constructor; simpl; intuition discriminate.
  - reflexivity.
  - reflexivity.
Defined.

(** ** update_one *)

Section update_facts.
Implicit Types (h : heap) (c : MockCollection) (body items : dict)
  (f g : string) (v : value).

Lemma update_one_existing h c q k l body update :
  dict_get q "_id" = Some k ->
  data_get c k = Ok (Some l) -> h !! l = Some body ->
  update_one h c (VDict q) update =
    (match fst (apply_update update body) with
     | Ok _ => Ok {| modified_count := 1 |}
     | Raise e => Raise e
     end, <[l := snd (apply_update update body)]> h).
Proof.
  intros Hq Hk Hl. unfold update_one. rewrite Hq, Hk, Hl.
  destruct (apply_update update body) as [[u|e] body']; reflexivity.
Qed.

Lemma update_one_missing h c q k update :
  dict_get q "_id" = Some k -> data_get c k = Ok None ->
  update_one h c (VDict q) update = (Ok {| modified_count := 0 |}, h).
Proof. intros Hq Hk. unfold update_one. now rewrite Hq, Hk. Qed.

Lemma sequence_or_absent_set body f g xs :
  sequence_or_absent body g = true ->
  sequence_or_absent (dict_set body f (VList xs)) g = true.
Proof.
  unfold sequence_or_absent. destruct (String.eqb_spec f g) as [->|Hne].
  - now rewrite dict_get_set_eq.
  - now rewrite dict_get_set_ne.
Qed.

Lemma fits_set body f xs items :
  forallb (fun kv => sequence_or_absent body (fst kv)) items = true ->
  forallb (fun kv => sequence_or_absent (dict_set body f (VList xs)) (fst kv)) items
    = true.
Proof.
  rewrite !forallb_forall. intros H kv Hin.
  apply sequence_or_absent_set. now apply H.
Qed.

Lemma push_loop_fits items : forall body,
  forallb (fun kv => sequence_or_absent body (fst kv)) items = true ->
  exists body',
    push_loop body items = (Ok tt, body') /\
    forall g, sequence_or_absent body g = true ->
              sequence_or_absent body' g = true.
Proof.
  induction items as [|[f v] items IH]; intros body Hfit; simpl.
  - eauto.
  - simpl in Hfit. apply andb_prop in Hfit as [Hf Hrest].
    unfold sequence_or_absent in Hf.
    destruct (dict_get body f) as [[| | | |xs|]|] eqn:E; try discriminate.
    + destruct (IH (dict_set body f (VList (xs ++ [v])))) as (body' & -> & Hkeep);
        [now apply fits_set|].
      eexists. split; [reflexivity|].
      intros g Hg. apply Hkeep. now apply sequence_or_absent_set.
    + destruct (IH (dict_set body f (VList [v]))) as (body' & -> & Hkeep);
        [now apply fits_set|].
      eexists. split; [reflexivity|].
      intros g Hg. apply Hkeep. now apply sequence_or_absent_set.
Qed.

Lemma pull_loop_fits items : forall body,
  forallb (fun kv => sequence_or_absent body (fst kv)) items = true ->
  exists body', pull_loop body items = (Ok tt, body').
Proof.
  induction items as [|[f v] items IH]; intros body Hfit; simpl.
  - eauto.
  - simpl in Hfit. apply andb_prop in Hfit as [Hf Hrest].
    unfold sequence_or_absent in Hf.
    destruct (dict_get body f) as [[| | | |xs|]|] eqn:E; try discriminate.
    + simpl. destruct (existsb _ xs).
      * apply IH. now apply fits_set.
      * now apply IH.
    + now apply IH.
Qed.

(** A clause of a dict-shaped update, by whether the operator is there. *)
Lemma clause_dict op loop u body :
  clause op loop (VDict u) body =
    match dict_get u op with
    | Some (VDict items) => loop body items
    | Some _ => (Raise AttributeError, body)
    | None => (Ok tt, body)
    end.
Proof.
  unfold clause, py_contains, py_getitem, dict_mem, ODict.mem.
  fold (dict_get u op).
  destruct (dict_get u op) as [[| | | | |items]|]; reflexivity.
Qed.

Lemma apply_update_fits body update :
  update_fits body update = true ->
  exists body', apply_update update body = (Ok tt, body').
Proof.
  destruct update as [| | | | |u]; try discriminate. simpl.
  intros Hfit. apply andb_prop in Hfit as [Hpush Hpull].
  unfold apply_update. rewrite clause_dict.
  unfold clause_fits in Hpush, Hpull.
  destruct (dict_get u "$push") as [[| | | | |pushes]|]; try discriminate.
  - destruct (push_loop_fits pushes body Hpush) as (body1 & -> & Hkeep).
    rewrite clause_dict.
    destruct (dict_get u "$pull") as [[| | | | |pulls]|]; try discriminate.
    + apply pull_loop_fits. rewrite forallb_forall in *.
      intros kv Hin. apply Hkeep. now apply Hpull.
    + eauto.
  - cbn iota. rewrite clause_dict.
    destruct (dict_get u "$pull") as [[| | | | |pulls]|]; try discriminate.
    + now apply pull_loop_fits.
    + eauto.
Qed.
End update_facts.

Section push_pull.
Implicit Types (h : heap) (c : MockCollection) (body : dict)
  (f : string) (v x y : value) (xs pre post : list value).

Lemma dict_set_set body f v x :
  dict_set (dict_set body f v) f x = dict_set body f x.
Proof.
  unfold dict_set.
  induction body as [|[k' v'] body IH]; simpl.
  - now rewrite String.eqb_refl.
  - destruct (String.eqb k' f) eqn:E; simpl; rewrite E; [reflexivity|now rewrite IH].
Qed.

Lemma dict_set_id body f v : dict_get body f = Some v -> dict_set body f v = body.
Proof.
  unfold dict_get, dict_set.
  induction body as [|[k' v'] body IH]; simpl; [discriminate|].
  destruct (String.eqb k' f); [now intros [= ->]|].
  intros H. now rewrite IH.
Qed.

Lemma apply_push body f v :
  apply_update (push_update f v) body =
    match dict_get body f with
    | Some (VList xs) => (Ok tt, dict_set body f (VList (xs ++ [v])))
    | Some _ => (Raise AttributeError, body)
    | None => (Ok tt, dict_set body f (VList [v]))
    end.
Proof.
  unfold apply_update, push_update. rewrite clause_dict. simpl.
  destruct (dict_get body f) as [[| | | |xs|]|]; reflexivity.
Qed.

Lemma apply_pull body f v :
  apply_update (pull_update f v) body =
    match dict_get body f with
    | Some (VList xs) =>
        if existsb (fun x => py_eq x v) xs
        then (Ok tt, dict_set body f (VList (list_remove v xs)))
        else (Ok tt, body)
    | Some cur =>
        match py_contains cur v with
        | Ok true => (Raise AttributeError, body)
        | Ok false => (Ok tt, body)
        | Raise e => (Raise e, body)
        end
    | None => (Ok tt, body)
    end.
Proof.
  unfold apply_update, pull_update. rewrite clause_dict. simpl.
  rewrite clause_dict. simpl.
  destruct (dict_get body f) as [[| | | |xs|]|]; reflexivity.
Qed.

Lemma existsb_first pre x post v :
  py_eq x v = true -> existsb (fun y => py_eq y v) (pre ++ x :: post) = true.
Proof.
  intros Hx. rewrite existsb_app. simpl. rewrite Hx.
  now rewrite orb_true_r.
Qed.

Lemma existsb_none xs v :
  (forall y, In y xs -> py_eq y v = false) ->
  existsb (fun y => py_eq y v) xs = false.
Proof.
  intros H. induction xs as [|y xs IH]; simpl; [reflexivity|].
  rewrite H by (simpl; tauto). apply IH. intros z Hz. apply H. simpl. tauto.
Qed.

Lemma list_remove_first pre x post v :
  py_eq x v = true -> (forall y, In y pre -> py_eq y v = false) ->
  list_remove v (pre ++ x :: post) = pre ++ post.
Proof.
  intros Hx Hpre. induction pre as [|y pre IH]; simpl.
  - now rewrite Hx.
  - rewrite Hpre by (simpl; tauto). f_equal. apply IH.
    intros z Hz. apply Hpre. simpl. tauto.
Qed.

Lemma update_each_push c q k l f vs : forall h body xs,
  dict_get q "_id" = Some k -> data_get c k = Ok (Some l) ->
  h !! l = Some body -> dict_get body f = Some (VList xs) ->
  exists h',
    update_each h c (VDict q) (map (push_update f) vs) = (Ok tt, h') /\
    h' !! l = Some (dict_set body f (VList (xs ++ vs))).
Proof.
  induction vs as [|v vs IH]; intros h body xs Hq Hk Hl Hf;
    cbn [update_each map].
  - exists h. split; [reflexivity|].
    now rewrite app_nil_r, dict_set_id.
  - rewrite (update_one_existing h c q k l body) by assumption.
    rewrite apply_push, Hf. cbn [fst snd].
    destruct (IH (<[l := dict_set body f (VList (xs ++ [v]))]> h)
                 (dict_set body f (VList (xs ++ [v]))) (xs ++ [v]))
      as (h' & -> & Hh'); try assumption.
    + apply lookup_insert_eq.
    + apply dict_get_set_eq.
    + exists h'. split; [reflexivity|].
      now rewrite Hh', dict_set_set, <- app_assoc.
Qed.

(** A [$push] on a field that holds anything but a sequence stops at
    [.append], whatever the record and the value. *)
Lemma push_on_non_sequence h c q k l body f v cur :
  dict_get q "_id" = Some k -> data_get c k = Ok (Some l) ->
  h !! l = Some body -> dict_get body f = Some cur ->
  (forall xs, cur <> VList xs) ->
  update_one h c (VDict q) (push_update f v) = (Raise AttributeError, h).
Proof.
  intros Hq Hk Hl Hf Hcur.
  rewrite (update_one_existing h c q k l body) by assumption.
  rewrite apply_push, Hf.
  destruct cur as [| | | |xs|]; cbn [fst snd];
    try (now rewrite insert_id).
  now destruct (Hcur xs).
Qed.
End push_pull.

(** C1: with the identifier in the query, an existing key gives modified
    count 1 whatever the clauses did to the record (every call that returns
    returns 1, a call whose clauses fit the record does return, and pulling
    a value that is not in the sequence returns 1 with the store as it
    was); a missing key gives modified count 0 and the store as it was. *)
Theorem update_one_modified_count (h : heap) (c : MockCollection) (q : dict)
    (k update : value) :
  dict_get q "_id" = Some k ->
  (forall l body,
      data_get c k = Ok (Some l) -> h !! l = Some body ->
      (forall r h', update_one h c (VDict q) update = (Ok r, h') ->
                    modified_count r = 1) /\
      (update_fits body update = true ->
       exists h', update_one h c (VDict q) update
                  = (Ok {| modified_count := 1 |}, h')) /\
      (forall f v xs,
          dict_get body f = Some (VList xs) ->
          existsb (fun x => py_eq x v) xs = false ->
          update_one h c (VDict q) (pull_update f v)
          = (Ok {| modified_count := 1 |}, h))) /\
  (data_get c k = Ok None ->
   update_one h c (VDict q) update = (Ok {| modified_count := 0 |}, h)).
Proof.
  intros Hq. split.
  - intros l body Hk Hl. repeat split.
    + intros r h'. rewrite (update_one_existing h c q k l body) by assumption.
      destruct (fst (apply_update update body)); [|discriminate].
      now intros [= <- _].
    + intros Hfit. rewrite (update_one_existing h c q k l body) by assumption.
      destruct (apply_update_fits body update Hfit) as (body' & ->).
      eexists. reflexivity.
    + intros f v xs Hf Hno.
      rewrite (update_one_existing h c q k l body) by assumption.
      rewrite apply_pull, Hf, Hno. cbn [fst snd].
      now rewrite insert_id.
  - now apply update_one_missing.
Qed.

Lemma update_one_modified_count_witness :
  update_one sample_heap sample_collection (by_id (VStr "Chess Club"))
    (pull_update "participants" (VStr "zoe"))
  = (Ok {| modified_count := 1 |}, sample_heap).
Proof.
  destruct (update_one_modified_count sample_heap sample_collection
              [("_id", VStr "Chess Club")] (VStr "Chess Club")
              (pull_update "participants" (VStr "zoe")) eq_refl) as [Hex _].
  destruct (Hex 0%nat sample_body eq_refl eq_refl) as (_ & _ & Hpull).
  exact (Hpull "participants" (VStr "zoe") _ eq_refl eq_refl).
Defined.

(** C3: on an existing key, [$push] on field [f] leaves the sequence of
    [f] with exactly the pushed value added at its end, and a record
    without field [f] with the one-element sequence of that value; pushes
    repeated on a record without the field leave the pushed values in push
    order, duplicates included, so [n] pushes of one value leave [f] with
    a sequence of length [n].  Each is stated by what field [f] of the
    record reads after the call. *)
Theorem push_appends_one (h : heap) (c : MockCollection) (q : dict)
    (k : value) (l : loc) (body : dict) (f : string) (v : value) :
  dict_get q "_id" = Some k ->
  data_get c k = Ok (Some l) ->
  h !! l = Some body ->
  (forall xs, dict_get body f = Some (VList xs) ->
     exists h' body',
       update_one h c (VDict q) (push_update f v)
       = (Ok {| modified_count := 1 |}, h') /\
       h' !! l = Some body' /\
       dict_get body' f = Some (VList (xs ++ [v]))) /\
  (dict_get body f = None ->
     exists h' body',
       update_one h c (VDict q) (push_update f v)
       = (Ok {| modified_count := 1 |}, h') /\
       h' !! l = Some body' /\
       dict_get body' f = Some (VList [v])) /\
  (dict_get body f = None ->
   forall vs, vs <> [] ->
     exists h' body',
       update_each h c (VDict q) (map (push_update f) vs) = (Ok tt, h') /\
       h' !! l = Some body' /\
       dict_get body' f = Some (VList vs)) /\
  (dict_get body f = None ->
   forall n, (0 < n)%nat ->
     exists h' body' ys,
       update_each h c (VDict q) (repeat (push_update f v) n) = (Ok tt, h') /\
       h' !! l = Some body' /\
       dict_get body' f = Some (VList ys) /\
       length ys = n /\
       Forall (fun y => y = v) ys).
Proof.
  intros Hq Hk Hl.
  assert (Hmany : dict_get body f = None -> forall vs, vs <> [] ->
            exists h' body',
              update_each h c (VDict q) (map (push_update f) vs) = (Ok tt, h') /\
              h' !! l = Some body' /\
              dict_get body' f = Some (VList vs)).
  { intros Hf [|v0 vs] Hne; [contradiction|]. cbn [update_each map].
    rewrite (update_one_existing h c q k l body) by assumption.
    rewrite apply_push, Hf. cbn [fst snd].
    destruct (update_each_push c q k l f vs
                (<[l := dict_set body f (VList [v0])]> h)
                (dict_set body f (VList [v0])) [v0])
      as (h' & -> & Hh'); try assumption.
    - apply lookup_insert_eq.
    - apply dict_get_set_eq.
    - exists h'. eexists. split; [reflexivity|]. split; [exact Hh'|].
      apply dict_get_set_eq. }
  split; [|split; [|split]].
  - intros xs Hf. rewrite (update_one_existing h c q k l body) by assumption.
    rewrite apply_push, Hf. cbn [fst snd]. eexists _, _.
    split; [reflexivity|]. split; [apply lookup_insert_eq|apply dict_get_set_eq].
  - intros Hf. rewrite (update_one_existing h c q k l body) by assumption.
    rewrite apply_push, Hf. cbn [fst snd]. eexists _, _.
    split; [reflexivity|]. split; [apply lookup_insert_eq|apply dict_get_set_eq].
  - exact Hmany.
  - intros Hf n Hn.
    destruct (Hmany Hf (repeat v n)) as (h' & body' & Hrun & Hh' & Hread).
    { destruct n; [lia|discriminate]. }
    exists h', body', (repeat v n). rewrite map_repeat in Hrun.
    split; [exact Hrun|]. split; [exact Hh'|]. split; [exact Hread|].
    split; [apply repeat_length|].
    apply List.Forall_forall. intros y Hy. now apply repeat_spec in Hy.
Qed.

Lemma push_appends_one_witness :
  exists h' body',
    update_one sample_heap sample_collection (by_id (VStr "Chess Club"))
      (push_update "participants" (VStr "bob"))
    = (Ok {| modified_count := 1 |}, h') /\
    h' !! 0%nat = Some body' /\
    dict_get body' "participants"
    = Some (VList [VStr "ann"; VStr "bob"; VStr "ann"; VStr "bob"]).
Proof.
  destruct (push_appends_one sample_heap sample_collection
              [("_id", VStr "Chess Club")] (VStr "Chess Club") 0%nat
              sample_body "participants" (VStr "bob")
              eq_refl eq_refl eq_refl) as [Hpresent _].
  exact (Hpresent [VStr "ann"; VStr "bob"; VStr "ann"] eq_refl).
Defined.

(** C4: on an existing key, [$pull] on field [f] leaves the sequence of
    [f] without its first element equal to the value and with everything
    else in place, later equal elements included (stated by what field
    [f] reads after the call); a record without field [f], or whose
    sequence has no element equal to the value, is left as it was, and so
    is the whole store. *)
Theorem pull_removes_first_occurrence (h : heap) (c : MockCollection)
    (q : dict) (k : value) (l : loc) (body : dict) (f : string) (v : value) :
  dict_get q "_id" = Some k ->
  data_get c k = Ok (Some l) ->
  h !! l = Some body ->
  (forall pre x post,
      dict_get body f = Some (VList (pre ++ x :: post)) ->
      py_eq x v = true ->
      (forall y, In y pre -> py_eq y v = false) ->
      exists h' body',
        update_one h c (VDict q) (pull_update f v)
        = (Ok {| modified_count := 1 |}, h') /\
        h' !! l = Some body' /\
        dict_get body' f = Some (VList (pre ++ post))) /\
  (dict_get body f = None ->
     update_one h c (VDict q) (pull_update f v)
     = (Ok {| modified_count := 1 |}, h)) /\
  (forall xs,
      dict_get body f = Some (VList xs) ->
      (forall y, In y xs -> py_eq y v = false) ->
      update_one h c (VDict q) (pull_update f v)
      = (Ok {| modified_count := 1 |}, h)).
Proof.
  intros Hq Hk Hl. split; [|split].
  - intros pre x post Hf Hx Hpre.
    rewrite (update_one_existing h c q k l body) by assumption.
    rewrite apply_pull, Hf, existsb_first by exact Hx. cbn [fst snd].
    rewrite list_remove_first by assumption. eexists _, _.
    split; [reflexivity|]. split; [apply lookup_insert_eq|apply dict_get_set_eq].
  - intros Hf. rewrite (update_one_existing h c q k l body) by assumption.
    rewrite apply_pull, Hf. cbn [fst snd]. now rewrite insert_id.
  - intros xs Hf Hno.
    rewrite (update_one_existing h c q k l body) by assumption.
    rewrite apply_pull, Hf, existsb_none by exact Hno. cbn [fst snd].
    now rewrite insert_id.
Qed.

Lemma pull_removes_first_occurrence_witness :
  exists h' body',
    update_one sample_heap sample_collection (by_id (VStr "Chess Club"))
      (pull_update "participants" (VStr "ann"))
    = (Ok {| modified_count := 1 |}, h') /\
    h' !! 0%nat = Some body' /\
    dict_get body' "participants" = Some (VList [VStr "bob"; VStr "ann"]).
Proof.
  destruct (pull_removes_first_occurrence sample_heap sample_collection
              [("_id", VStr "Chess Club")] (VStr "Chess Club") 0%nat
              sample_body "participants" (VStr "ann")
              eq_refl eq_refl eq_refl) as [Hfirst _].
  apply (Hfirst [] (VStr "ann") [VStr "bob"; VStr "ann"] eq_refl eq_refl).
  intros y [].
Defined.

(** C9: [insert_one(d)] changes the caller's own dict: the ["_id"] entry is
    gone from the object [d] refers to, and the collection stores that very
    object under the key.  So a later [$push] through the store shows in
    the caller's dict, and whatever the caller later makes of its dict is
    what [find_one] reads. *)
Theorem insert_one_mutates_argument (h : heap) (c : MockCollection)
    (document : loc) (d : dict) (k : value) :
  h !! document = Some d ->
  dict_get d "_id" = Some k ->
  hashable k = true ->
  exists h' c',
    insert_one h c document = (Ok {| acknowledged := true |}, h', c') /\
    h' !! document = Some (dict_pop d "_id") /\
    dict_get (dict_pop d "_id") "_id" = None /\
    data_get c' k = Ok (Some document) /\
    (forall f v,
        dict_get (dict_pop d "_id") f = None ->
        snd (update_one h' c' (by_id k) (push_update f v)) !! document
        = Some (dict_set (dict_pop d "_id") f (VList [v]))) /\
    (forall d2,
        find_one (<[document := d2]> h') c' (by_id k) = Ok (Some (with_id k d2))).
Proof.
  intros Hd Hk Hh. eexists _, _.
  split; [exact (insert_one_present h c document d k Hd Hk Hh)|].
  split; [apply lookup_insert_eq|].
  split; [apply dict_get_pop_eq|].
  split; [now apply data_get_set|].
  split.
  - intros f v Hf.
    rewrite (update_one_existing _ _ [("_id", k)] k document (dict_pop d "_id"));
      [|reflexivity|now apply data_get_set|apply lookup_insert_eq].
    rewrite apply_push, Hf. cbn [fst snd]. apply lookup_insert_eq.
  - intros d2. unfold find_one, by_id. cbn [dict_get ODict.get].
    rewrite String.eqb_refl, data_get_set by exact Hh. cbn [bind].
    unfold deref. now rewrite lookup_insert_eq.
Qed.

Lemma insert_one_mutates_argument_witness :
  exists h' c',
    insert_one {[ 0%nat := [("_id", VStr "k"); ("name", VStr "x")] ]}
               {| _data := [] |} 0%nat
      = (Ok {| acknowledged := true |}, h', c') /\
    h' !! 0%nat = Some [("name", VStr "x")] /\
    data_get c' (VStr "k") = Ok (Some 0%nat).
Proof.
  destruct (insert_one_mutates_argument
              {[ 0%nat := [("_id", VStr "k"); ("name", VStr "x")] ]}
              {| _data := [] |} 0%nat
              [("_id", VStr "k"); ("name", VStr "x")] (VStr "k"))
    as (h' & c' & Hins & Hbody & _ & Hkey & _); [reflexivity..|].
  exists h', c'. repeat split; assumption.
Defined.

(** ** _matches_query *)

Section query_facts.
Implicit Types (body q : dict) (s t : string) (condition : value).


Lemma matches_loop_true body q :
  matches_loop body q = Ok true <->
  forall field condition,
    In (field, condition) q -> match_condition body field condition = Ok true.
Proof.
  induction q as [|[f c] q IH]; simpl.
  - split; [intros _ ? ? []|reflexivity].
  - destruct (match_condition body f c) as [[|]|e] eqn:E; simpl.
    + rewrite IH. split.
      * intros H f' c' [[= <- <-]|Hin]; [exact E|now apply H].
      * intros H f' c' Hin. apply H. now right.
    + split; [discriminate|]. intros H.
      specialize (H f c (or_introl eq_refl)). congruence.
    + split; [discriminate|]. intros H.
      specialize (H f c (or_introl eq_refl)). congruence.
Qed.





End query_facts.



(** C6: a condition on any field path other than the three schedule paths
    holds of every record, so [find] with a query made of such paths only
    yields every record of the store: when the collection holds the
    records [recs], it yields each of them with its key restored, in
    order, as many as [count_documents] counts, and the same as [find]
    without a query. *)
Theorem unrecognized_paths_always_match :
  (forall (body : dict) (field : string) (condition : value),
      recognized field = false ->
      match_condition body field condition = Ok true) /\
  (forall (h : heap) (c : MockCollection) (q : dict)
          (recs : list (value * dict)),
      forallb (fun kv => negb (recognized (fst kv))) q = true ->
      stored h (_data c) recs ->
      exists rs,
        find h c (VDict q) = Ok rs /\
        rs = map (fun kb => with_id (fst kb) (snd kb)) recs /\
        Z.of_nat (length rs) = count_documents c (VDict q) /\
        find h c VNone = Ok rs).
Proof.
  assert (Hone : forall (body : dict) (field : string) (condition : value),
             recognized field = false ->
             match_condition body field condition = Ok true).
  { intros body field condition Hrec. unfold recognized in Hrec.
    apply orb_false_elim in Hrec as [Hrec Hend].
    apply orb_false_elim in Hrec as [Hdays Hstart].
    unfold match_condition. now rewrite Hdays, Hstart, Hend. }
  split; [exact Hone|].
  intros h c q recs Hq Hst.
  assert (Hall : forall body, _matches_query body (VDict q) = Ok true).
  { intros body. simpl. apply matches_loop_true.
    intros field condition Hin. apply Hone.
    rewrite forallb_forall in Hq. specialize (Hq _ Hin).
    now apply negb_true_iff in Hq. }
  unfold find, count_documents.
  exists (map (fun kb => with_id (fst kb) (snd kb)) recs).
  rewrite length_map, <- (Forall2_length _ _ _ Hst).
  induction Hst as [|[key l] [key' body] items recs [Hkey Hbody] _ IH].
  - repeat split; reflexivity.
  - simpl in Hkey, Hbody. subst key'.
    destruct IH as (IHq & _ & _ & IHn).
    cbn [find_matching find_all map fst snd]. unfold deref. rewrite Hbody.
    cbn [bind]. rewrite Hall, IHq, IHn. cbn [bind].
    repeat split; reflexivity.
Qed.

Lemma unrecognized_paths_always_match_witness :
  match_condition sample_body "max_participants" (VInt 12) = Ok true /\
  exists rs,
    find sample_heap sample_collection (VDict [("max_participants", VInt 99)])
    = Ok rs /\
    rs = [("_id", VStr "Chess Club") :: sample_body] /\
    Z.of_nat (length rs)
    = count_documents sample_collection (VDict [("max_participants", VInt 99)]) /\
    find sample_heap sample_collection VNone = Ok rs.
Proof.
  destruct unrecognized_paths_always_match as [Hone Hfind].
  split.
  - apply (Hone sample_body "max_participants" (VInt 12)). reflexivity.
  - apply (Hfind sample_heap sample_collection [("max_participants", VInt 99)]
             [(VStr "Chess Club", sample_body)]).
    + reflexivity.
    + constructor; [|constructor]. split; reflexivity.
Defined.

(** ** The seeded store *)

(** C8: on the store holding exactly the seed activities (seeded by the
    [try] block of [init_database], or by its handler), the Monday query
    yields the records of Chess Club, Morning Fitness and Drama Club, and
    nothing else. *)
Theorem monday_query_on_seed (hash_password : string -> string) :
  let seeded := snd (init_database hash_password fresh_world) in
  let repaired := snd (init_database_except hash_password fresh_world) in
  fst (init_database hash_password fresh_world) = Ok tt /\
  find (objects seeded) (activities_collection seeded) VNone
  = Ok (map (fun kv => seed_record (fst kv)) initial_activities) /\
  find (objects seeded) (activities_collection seeded) monday_query
  = Ok [seed_record "Chess Club"; seed_record "Morning Fitness";
        seed_record "Drama Club"] /\
  find (objects repaired) (activities_collection repaired) monday_query
  = Ok [seed_record "Chess Club"; seed_record "Morning Fitness";
        seed_record "Drama Club"].
Proof. vm_compute. repeat split; reflexivity. Qed.

(** The query [{"schedule_details.start_time": {"$gte": "15:00"}}] on the
    seeded store leaves out the two early activities and keeps Chess
    Club. *)
Example afternoon_query_on_seed (hash_password : string -> string) :
  let seeded := snd (init_database hash_password fresh_world) in
  exists rs,
    find (objects seeded) (activities_collection seeded)
      (VDict [("schedule_details.start_time", VDict [("$gte", VStr "15:00")])])
    = Ok rs /\
    In (seed_record "Chess Club") rs /\
    ~ In (seed_record "Programming Class") rs /\
    ~ In (seed_record "Math Club") rs.
Proof.
  eexists. split; [vm_compute; reflexivity|].
  split; [simpl; tauto|].
  split; simpl; intuition discriminate.
Qed.

(** C7, at an input the seeded store can receive: [$push] on the integer
    field [max_participants] of an existing activity ends in
    [AttributeError], [$pull] on it in [TypeError], and [find] with a
    query that is not a dict in [AttributeError]. *)
Theorem update_one_raises_on_non_sequence (hash_password : string -> string) :
  let seeded := snd (init_database hash_password fresh_world) in
  fst (update_one (objects seeded) (activities_collection seeded)
         (by_id (VStr "Chess Club")) (push_update "max_participants" (VStr "x")))
  = Raise AttributeError /\
  fst (update_one (objects seeded) (activities_collection seeded)
         (by_id (VStr "Chess Club")) (pull_update "max_participants" (VStr "x")))
  = Raise TypeError /\
  find (objects seeded) (activities_collection seeded) (VStr "Monday")
  = Raise AttributeError.
Proof. vm_compute. repeat split; reflexivity. Qed.

(** C10: the two ways [init_database] seeds teachers store different
    bodies.  After the [try] block a teacher read back by [find_one] has a
    [username] field; after the handler (run on the empty store, or on
    the store the [try] block left) the same teacher has none, the record
    being otherwise the same. *)
Theorem teacher_seeding_paths_differ (hash_password : string -> string) :
  let normal := snd (init_database_try hash_password fresh_world) in
  let fallback := snd (init_database_except hash_password fresh_world) in
  let late := snd (init_database_except hash_password normal) in
  fst (init_database_try hash_password fresh_world) = Ok tt /\
  fst (init_database_except hash_password fresh_world) = Ok tt /\
  Forall (fun name =>
    exists r r',
      find_one (objects normal) (teachers_collection normal) (by_id (VStr name))
      = Ok (Some r) /\
      find_one (objects fallback) (teachers_collection fallback) (by_id (VStr name))
      = Ok (Some r') /\
      find_one (objects late) (teachers_collection late) (by_id (VStr name))
      = Ok (Some r') /\
      dict_get r "username" = Some (VStr name) /\
      dict_get r' "username" = None /\
      r' = dict_pop r "username")
    ["mrodriguez"; "mchen"; "principal"].
Proof.
  cbv zeta. split; [vm_compute; reflexivity|].
  split; [vm_compute; reflexivity|].
  repeat constructor; eexists _, _;
    (split; [vm_compute; reflexivity|]);
    (split; [vm_compute; reflexivity|]);
    (split; [vm_compute; reflexivity|]);
    repeat split; reflexivity.
Qed.


(** * Further properties *)

(** ** Keys of the collection *)

Ltac key_cases :=
  simpl; intros; try discriminate; try reflexivity;
  repeat match goal with
         | H : Z.eqb _ _ = true |- _ => apply Z.eqb_eq in H
         | H : String.eqb _ _ = true |- _ => apply String.eqb_eq in H
         | b : bool |- _ => destruct b
         end;
  subst; try discriminate; try reflexivity;
  try (apply Z.eqb_eq; lia); try apply String.eqb_refl; try lia.

Lemma py_eq_hashable_l (a b : value) :
  hashable b = true -> py_eq a b = true -> hashable a = true.
Proof. destruct a, b; key_cases. Qed.

(** On hashable values [==] is transitive through a shared left key. *)
Lemma py_eq_common_key (k' k k2 : value) :
  hashable k = true -> hashable k2 = true ->
  py_eq k' k = true -> py_eq k' k2 = true -> py_eq k k2 = true.
Proof. destruct k', k, k2; key_cases. Qed.

Lemma py_eq_string_key (k' : value) (s : string) :
  py_eq k' (VStr s) = true -> k' = VStr s.
Proof. destruct k'; key_cases. Qed.

Section data_facts.
Implicit Types (data : list (value * loc)) (k : value) (l : loc).

Lemma data_set_absent data k l :
  ODict.get py_eq data k = None ->
  ODict.set py_eq data k l = data ++ [(k, l)].
Proof.
  induction data as [|[k' l'] data IH]; simpl; [reflexivity|].
  destruct (py_eq k' k); [discriminate|]. intros H. now rewrite IH.
Qed.

Lemma data_set_present data k l l0 :
  ODict.get py_eq data k = Some l0 ->
  length (ODict.set py_eq data k l) = length data /\
  map fst (ODict.set py_eq data k l) = map fst data.
Proof.
  induction data as [|[k' l'] data IH]; simpl; [discriminate|].
  destruct (py_eq k' k); simpl; [tauto|].
  intros H. destruct (IH H) as [-> ->]. tauto.
Qed.

Lemma data_get_set_other data k k2 l :
  hashable k = true -> hashable k2 = true -> py_eq k k2 = false ->
  ODict.get py_eq (ODict.set py_eq data k l) k2 = ODict.get py_eq data k2.
Proof.
  intros Hk Hk2 Hne.
  induction data as [|[k' l'] data IH]; simpl.
  - now rewrite Hne.
  - destruct (py_eq k' k) eqn:E; simpl.
    + destruct (py_eq k' k2) eqn:E2; [|reflexivity].
      rewrite (py_eq_common_key k' k k2) in Hne by assumption. discriminate.
    + now rewrite IH.
Qed.
End data_facts.

(** ** Lookups by identifier *)

(** X1: a query that is no dict, or a dict without ["_id"], is a miss and
    not an error: [find_one] returns [None], and [update_one] returns
    modified count 0 and leaves the store alone whatever the update is. *)
Theorem lookup_without_identifier (h : heap) (c : MockCollection)
    (query update : value) :
  (forall q, query = VDict q -> dict_get q "_id" = None) ->
  find_one h c query = Ok None /\
  update_one h c query update = (Ok {| modified_count := 0 |}, h).
Proof.
  intros Hq. unfold find_one, update_one.
  destruct query as [| | | | |q]; try (split; reflexivity).
  now rewrite (Hq q eq_refl).
Qed.

Lemma lookup_without_identifier_witness :
  find_one sample_heap sample_collection (VDict [("name", VStr "Chess Club")])
  = Ok None /\
  update_one sample_heap sample_collection (VDict [("name", VStr "Chess Club")])
    (VInt 7)
  = (Ok {| modified_count := 0 |}, sample_heap).
Proof.
  apply (lookup_without_identifier sample_heap sample_collection
           (VDict [("name", VStr "Chess Club")]) (VInt 7)).
  intros q [= <-]. reflexivity.
Defined.

(** X2: an identifier that cannot be hashed (a list or a dict) makes both
    [find_one] and [update_one] raise [TypeError] at the membership test,
    before anything is changed. *)
Theorem unhashable_identifier_raises (h : heap) (c : MockCollection)
    (q : dict) (k update : value) :
  dict_get q "_id" = Some k ->
  hashable k = false ->
  find_one h c (VDict q) = Raise TypeError /\
  update_one h c (VDict q) update = (Raise TypeError, h).
Proof.
  intros Hq Hk. unfold find_one, update_one, data_get.
  now rewrite Hq, Hk.
Qed.

Lemma unhashable_identifier_raises_witness :
  find_one sample_heap sample_collection (by_id (VList [VStr "Chess Club"]))
  = Raise TypeError /\
  update_one sample_heap sample_collection (by_id (VList [VStr "Chess Club"]))
    (push_update "participants" (VStr "zoe"))
  = (Raise TypeError, sample_heap).
Proof.
  apply (unhashable_identifier_raises sample_heap sample_collection
           [("_id", VList [VStr "Chess Club"])] (VList [VStr "Chess Club"]));
    reflexivity.
Defined.

(** ** insert_one, continued *)

Lemma insert_one_absent (h : heap) (c : MockCollection) (document : loc)
    (d : dict) :
  h !! document = Some d -> dict_get d "_id" = None ->
  insert_one h c document = (Ok {| acknowledged := false |}, h, c).
Proof. intros Hd Hk. unfold insert_one. now rewrite Hd, Hk. Qed.

(** X3: the identifier is popped before the key is used.  With an
    unhashable identifier [insert_one] raises [TypeError] and stores
    nothing, yet the caller's document has lost its ["_id"]: inserting the
    same document again is then refused without an error. *)
Theorem insert_one_unhashable_identifier (h : heap) (c : MockCollection)
    (document : loc) (d : dict) (k : value) :
  h !! document = Some d ->
  dict_get d "_id" = Some k ->
  hashable k = false ->
  let h' := <[document := dict_pop d "_id"]> h in
  insert_one h c document = (Raise TypeError, h', c) /\
  insert_one h' c document = (Ok {| acknowledged := false |}, h', c).
Proof.
  intros Hd Hk Hh h'. split.
  - unfold insert_one. now rewrite Hd, Hk, Hh.
  - apply (insert_one_absent h' c document (dict_pop d "_id")).
    + apply lookup_insert_eq.
    + apply dict_get_pop_eq.
Qed.

Lemma insert_one_unhashable_identifier_witness :
  insert_one {[ 0%nat := [("_id", VList []); ("name", VStr "x")] ]}
    {| _data := [] |} 0%nat
  = (Raise TypeError,
     <[0%nat := dict_pop [("_id", VList []); ("name", VStr "x")] "_id"]>
       {[ 0%nat := [("_id", VList []); ("name", VStr "x")] ]},
     {| _data := [] |}).
Proof.
  apply (insert_one_unhashable_identifier
           {[ 0%nat := [("_id", VList []); ("name", VStr "x")] ]}
           {| _data := [] |} 0%nat
           [("_id", VList []); ("name", VStr "x")] (VList []));
    reflexivity.
Defined.

(** X4: a document object can be inserted once.  The first call takes its
    ["_id"] away, so a second call with the same object is not
    acknowledged and changes neither the store nor the document. *)
Theorem insert_one_same_object_twice (h : heap) (c : MockCollection)
    (document : loc) (d : dict) (k : value) :
  h !! document = Some d ->
  dict_get d "_id" = Some k ->
  hashable k = true ->
  exists h1 c1,
    insert_one h c document = (Ok {| acknowledged := true |}, h1, c1) /\
    insert_one h1 c1 document = (Ok {| acknowledged := false |}, h1, c1).
Proof.
  intros Hd Hk Hh. eexists _, _.
  split; [exact (insert_one_present h c document d k Hd Hk Hh)|].
  apply (insert_one_absent _ _ document (dict_pop d "_id")).
  - apply lookup_insert_eq.
  - apply dict_get_pop_eq.
Qed.

Lemma insert_one_same_object_twice_witness :
  exists h1 c1,
    insert_one {[ 0%nat := [("_id", VStr "k"); ("name", VStr "x")] ]}
      {| _data := [] |} 0%nat
    = (Ok {| acknowledged := true |}, h1, c1) /\
    insert_one h1 c1 0%nat = (Ok {| acknowledged := false |}, h1, c1).
Proof.
  apply (insert_one_same_object_twice
           {[ 0%nat := [("_id", VStr "k"); ("name", VStr "x")] ]}
           {| _data := [] |} 0%nat
           [("_id", VStr "k"); ("name", VStr "x")] (VStr "k"));
    reflexivity.
Defined.

(** X5: [insert_one] under a key the collection does not have appends the
    key after the existing ones and raises the count by one; under a key
    it has, the key keeps its place, the count stays, and the key now
    refers to the new document (last write wins). *)
Theorem insert_one_count_and_order (h : heap) (c : MockCollection)
    (document : loc) (d : dict) (k query : value) :
  h !! document = Some d ->
  dict_get d "_id" = Some k ->
  hashable k = true ->
  exists h' c',
    insert_one h c document = (Ok {| acknowledged := true |}, h', c') /\
    data_get c' k = Ok (Some document) /\
    (data_get c k = Ok None ->
     _data c' = _data c ++ [(k, document)] /\
     count_documents c' query = count_documents c query + 1) /\
    (forall l0, data_get c k = Ok (Some l0) ->
     map fst (_data c') = map fst (_data c) /\
     count_documents c' query = count_documents c query).
Proof.
  intros Hd Hk Hh. eexists _, _.
  split; [exact (insert_one_present h c document d k Hd Hk Hh)|].
  split; [now apply data_get_set|].
  unfold data_get, count_documents. rewrite Hh. cbn [_data]. split.
  - intros [= Hnone]. rewrite (data_set_absent _ _ _ Hnone).
    split; [reflexivity|]. rewrite length_app. simpl. lia.
  - intros l0 [= Hsome].
    destruct (data_set_present (_data c) k document l0 Hsome) as [-> ->].
    split; reflexivity.
Qed.

Lemma insert_one_count_and_order_witness :
  exists h' c',
    insert_one {[ 0%nat := sample_body; 1%nat := [("_id", VStr "Chess Club")] ]}
      sample_collection 1%nat
    = (Ok {| acknowledged := true |}, h', c') /\
    data_get c' (VStr "Chess Club") = Ok (Some 1%nat) /\
    count_documents c' VNone = count_documents sample_collection VNone.
Proof.
  destruct (insert_one_count_and_order
              {[ 0%nat := sample_body; 1%nat := [("_id", VStr "Chess Club")] ]}
              sample_collection 1%nat [("_id", VStr "Chess Club")]
              (VStr "Chess Club") VNone)
    as (h' & c' & Hins & Hget & _ & Hsame); [reflexivity..|].
  exists h', c'. repeat split; try assumption.
  apply (Hsame 0%nat). reflexivity.
Defined.

(** X6: [insert_one] under key [k] leaves every other key bound as it
    was, and a record under another key reads as before unless its body
    is the inserted object itself. *)
Theorem insert_one_other_keys (h : heap) (c : MockCollection)
    (document : loc) (d : dict) (k k2 : value) :
  h !! document = Some d ->
  dict_get d "_id" = Some k ->
  hashable k = true ->
  hashable k2 = true ->
  py_eq k k2 = false ->
  exists h' c',
    insert_one h c document = (Ok {| acknowledged := true |}, h', c') /\
    data_get c' k2 = data_get c k2 /\
    (forall l2, data_get c k2 = Ok (Some l2) -> l2 <> document ->
       find_one h' c' (by_id k2) = find_one h c (by_id k2)).
Proof.
  intros Hd Hk Hh Hh2 Hne. eexists _, _.
  split; [exact (insert_one_present h c document d k Hd Hk Hh)|].
  assert (Hget : data_get {| _data := ODict.set py_eq (_data c) k document |} k2
                 = data_get c k2).
  { unfold data_get. rewrite Hh2. cbn [_data].
    now rewrite data_get_set_other. }
  split; [exact Hget|].
  intros l2 Hl2 Hdiff. unfold find_one, by_id. cbn [dict_get ODict.get].
  rewrite String.eqb_refl, Hget, Hl2. cbn [bind]. unfold deref.
  now rewrite lookup_insert_ne by congruence.
Qed.

Lemma insert_one_other_keys_witness :
  exists h' c',
    insert_one {[ 0%nat := sample_body; 1%nat := [("_id", VStr "Art Club")] ]}
      sample_collection 1%nat
    = (Ok {| acknowledged := true |}, h', c') /\
    data_get c' (VStr "Chess Club") = data_get sample_collection (VStr "Chess Club").
Proof.
  destruct (insert_one_other_keys
              {[ 0%nat := sample_body; 1%nat := [("_id", VStr "Art Club")] ]}
              sample_collection 1%nat [("_id", VStr "Art Club")]
              (VStr "Art Club") (VStr "Chess Club"))
    as (h' & c' & Hins & Hget & _); [reflexivity..|].
  exists h', c'. split; assumption.
Defined.

(** ** update_one, continued *)

Section update_keeps.
Implicit Types (h : heap) (c : MockCollection) (body items : dict)
  (f g : string) (v a : value).

Lemma dict_set_keeps body f v g :
  dict_get body g <> None -> dict_get (dict_set body f v) g <> None.
Proof.
  intros Hg. destruct (String.eqb_spec f g) as [->|Hne].
  - now rewrite dict_get_set_eq.
  - now rewrite dict_get_set_ne.
Qed.

(** Writing a sequence over a field that held a sequence or nothing
    leaves a field that holds a scalar as it is. *)
Lemma dict_set_scalar body f xs ys g a :
  (dict_get body f = Some (VList xs) \/ dict_get body f = None) ->
  dict_get body g = Some a -> scalar a = true ->
  dict_get (dict_set body f (VList ys)) g = Some a.
Proof.
  intros Hf Hg Ha. rewrite dict_get_set_ne; [exact Hg|].
  intros ->. destruct Hf as [Hf|Hf]; rewrite Hf in Hg; [|discriminate].
  injection Hg as <-. discriminate.
Qed.

Lemma push_loop_keeps items : forall body g,
  dict_get body g <> None -> dict_get (snd (push_loop body items)) g <> None.
Proof.
  induction items as [|[f v] items IH]; intros body g Hg; simpl; [exact Hg|].
  destruct (dict_get body f) as [[| | | |xs|]|]; try exact Hg;
    (apply IH; now apply dict_set_keeps).
Qed.

Lemma push_loop_scalar items : forall body g a,
  dict_get body g = Some a -> scalar a = true ->
  dict_get (snd (push_loop body items)) g = Some a.
Proof.
  induction items as [|[f v] items IH]; intros body g a Hg Ha; simpl;
    [exact Hg|].
  destruct (dict_get body f) as [[| | | |xs|]|] eqn:E; try exact Hg.
  - apply IH; [|exact Ha]. apply (dict_set_scalar body f xs); auto.
  - apply IH; [|exact Ha]. apply (dict_set_scalar body f []); auto.
Qed.

Lemma pull_loop_keeps items : forall body g,
  dict_get body g <> None -> dict_get (snd (pull_loop body items)) g <> None.
Proof.
  induction items as [|[f v] items IH]; intros body g Hg; simpl; [exact Hg|].
  destruct (dict_get body f) as [cur|]; [|now apply IH].
  destruct (py_contains cur v) as [[|]|e]; [|now apply IH|exact Hg].
  destruct cur as [| | | |xs|]; try exact Hg.
  apply IH. now apply dict_set_keeps.
Qed.

Lemma pull_loop_scalar items : forall body g a,
  dict_get body g = Some a -> scalar a = true ->
  dict_get (snd (pull_loop body items)) g = Some a.
Proof.
  induction items as [|[f v] items IH]; intros body g a Hg Ha; simpl;
    [exact Hg|].
  destruct (dict_get body f) as [cur|] eqn:E; [|now apply IH].
  destruct (py_contains cur v) as [[|]|e]; [|now apply IH|exact Hg].
  destruct cur as [| | | |xs|]; try exact Hg.
  apply IH; [|exact Ha]. apply (dict_set_scalar body f xs); auto.
Qed.

(** A clause either leaves the body alone or runs its loop over the
    fields the update names under the operator. *)
Lemma clause_cases op loop update body :
  snd (clause op loop update body) = body \/
  exists u items,
    update = VDict u /\ dict_get u op = Some (VDict items) /\
    clause op loop update body = loop body items.
Proof.
  destruct update as [| | | s | l0 | u]; try (left; reflexivity).
  - left. unfold clause. simpl. destruct (substringb op s); reflexivity.
  - left. unfold clause. simpl. destruct (existsb _ l0); reflexivity.
  - rewrite clause_dict.
    destruct (dict_get u op) as [[| | | | |items]|] eqn:E;
      try (left; reflexivity).
    right. exists u, items. auto.
Qed.

(** What both loops keep of a body, both clauses keep. *)
Lemma apply_update_keeps (P : dict -> Prop) update body :
  (forall items b, P b -> P (snd (push_loop b items))) ->
  (forall items b, P b -> P (snd (pull_loop b items))) ->
  P body -> P (snd (apply_update update body)).
Proof.
  intros Hpush Hpull HP. unfold apply_update.
  assert (H1 : P (snd (clause "$push" push_loop update body))).
  { destruct (clause_cases "$push" push_loop update body)
      as [->|(u & items & _ & _ & ->)]; auto. }
  destruct (clause "$push" push_loop update body) as [[u|e] body1];
    cbn [snd] in *; [|exact H1].
  destruct (clause_cases "$pull" pull_loop update body1)
    as [->|(u' & items & _ & _ & ->)]; auto.
Qed.
End update_keeps.

(** X7: whatever the update is and whether or not the call raises,
    [update_one] on an existing key takes no field away from the record
    (a sequence pulled empty stays as a field) and leaves every field
    that holds a number, a string, a boolean or [None] with the value it
    had: only sequences are ever written. *)
Theorem update_one_keeps_fields_and_scalars (h : heap) (c : MockCollection)
    (q : dict) (k update : value) (l : loc) (body : dict) :
  dict_get q "_id" = Some k ->
  data_get c k = Ok (Some l) ->
  h !! l = Some body ->
  exists body',
    snd (update_one h c (VDict q) update) !! l = Some body' /\
    (forall g, dict_get body g <> None -> dict_get body' g <> None) /\
    (forall g a, dict_get body g = Some a -> scalar a = true ->
                 dict_get body' g = Some a).
Proof.
  intros Hq Hk Hl.
  rewrite (update_one_existing h c q k l body update Hq Hk Hl). cbn [snd].
  exists (snd (apply_update update body)).
  split; [apply lookup_insert_eq|]. split.
  - intros g.
    apply (apply_update_keeps (fun b => dict_get b g <> None)).
    + intros items b. apply push_loop_keeps.
    + intros items b. apply pull_loop_keeps.
  - intros g a Hg Ha.
    apply (apply_update_keeps (fun b => dict_get b g = Some a)); [| |exact Hg].
    + intros items b Hb. now apply push_loop_scalar.
    + intros items b Hb. now apply pull_loop_scalar.
Qed.

Lemma update_one_keeps_fields_and_scalars_witness :
  exists body',
    snd (update_one sample_heap sample_collection (by_id (VStr "Chess Club"))
           (push_update "max_participants" (VStr "x"))) !! 0%nat
    = Some body' /\
    dict_get body' "max_participants" = Some (VInt 12).
Proof.
  destruct (update_one_keeps_fields_and_scalars sample_heap sample_collection
              [("_id", VStr "Chess Club")] (VStr "Chess Club")
              (push_update "max_participants" (VStr "x")) 0%nat sample_body)
    as (body' & Hheap & _ & Hscalar); [reflexivity..|].
  exists body'. split; [exact Hheap|].
  apply Hscalar; reflexivity.
Defined.

(** X8: an update with neither [$push] nor [$pull] (say [{"$set": ...}])
    is accepted in silence: on an existing key it reports one record
    modified and changes nothing. *)
Theorem update_one_ignores_other_operators (h : heap) (c : MockCollection)
    (q u : dict) (k : value) (l : loc) (body : dict) :
  dict_get q "_id" = Some k ->
  data_get c k = Ok (Some l) ->
  h !! l = Some body ->
  dict_get u "$push" = None ->
  dict_get u "$pull" = None ->
  update_one h c (VDict q) (VDict u) = (Ok {| modified_count := 1 |}, h).
Proof.
  intros Hq Hk Hl Hpush Hpull.
  rewrite (update_one_existing h c q k l body _ Hq Hk Hl).
  unfold apply_update. rewrite clause_dict, Hpush. cbn iota.
  rewrite clause_dict, Hpull. cbn [fst snd]. now rewrite insert_id.
Qed.

Lemma update_one_ignores_other_operators_witness :
  update_one sample_heap sample_collection (by_id (VStr "Chess Club"))
    (VDict [("$set", VDict [("max_participants", VInt 0)])])
  = (Ok {| modified_count := 1 |}, sample_heap).
Proof.
  apply (update_one_ignores_other_operators sample_heap sample_collection
           [("_id", VStr "Chess Club")]
           [("$set", VDict [("max_participants", VInt 0)])]
           (VStr "Chess Club") 0%nat sample_body); reflexivity.
Defined.





(** ** _matches_query, continued *)

Section days_facts.
Implicit Types (body sd : dict) (ad ds : list value) (condition : value).

Lemma any_in_list ad ds :
  any_in (VList ad) ds
  = Ok (existsb (fun day => existsb (fun x => py_eq x day) ad) ds).
Proof.
  induction ds as [|day ds IH]; simpl; [reflexivity|].
  destruct (existsb (fun x => py_eq x day) ad); simpl; [reflexivity|exact IH].
Qed.

Lemma schedule_time_inv body leaf a :
  schedule_time body leaf = Some a ->
  exists sd, dict_get body "schedule_details" = Some (VDict sd) /\
             dict_get sd leaf = Some a.
Proof.
  unfold schedule_time.
  destruct (dict_get body "schedule_details") as [[| | | | |sd]|];
    try discriminate.
  eauto.
Qed.

Lemma schedule_field_present body leaf sd a :
  dict_get body "schedule_details" = Some (VDict sd) ->
  dict_get sd leaf = Some a ->
  schedule_field body leaf = Ok (Some (VDict sd)) /\
  py_getitem (VDict sd) leaf = Ok a.
Proof.
  intros Hsd Ha. unfold schedule_field, py_getitem. rewrite Hsd. simpl.
  unfold dict_mem, ODict.mem. fold (dict_get sd leaf). now rewrite Ha.
Qed.
End days_facts.

(** X11: on a record whose [schedule_details.days] is a sequence, a
    condition [{"$in": [...]}] holds exactly when one of the listed days
    is in the sequence (so an empty list holds of no record), and a bare
    string holds exactly when it is in the sequence; neither form
    raises.  A record without [schedule_details], or without [days] in
    it, fails every condition on that path. *)
Theorem days_conditions (body : dict) :
  (forall ad, schedule_time body "days" = Some (VList ad) ->
     (forall d ds, dict_get d "$in" = Some (VList ds) ->
        match_condition body "schedule_details.days" (VDict d)
        = Ok (existsb (fun day => existsb (fun x => py_eq x day) ad) ds)) /\
     (forall s,
        match_condition body "schedule_details.days" (VStr s)
        = Ok (existsb (fun x => py_eq x (VStr s)) ad))) /\
  ((dict_get body "schedule_details" = None \/
    exists sd, dict_get body "schedule_details" = Some (VDict sd) /\
               dict_get sd "days" = None) ->
   forall condition,
     match_condition body "schedule_details.days" condition = Ok false).
Proof.
  split.
  - intros ad Hdays.
    destruct (schedule_time_inv body "days" _ Hdays) as (sd & Hsd & Had).
    destruct (schedule_field_present body "days" sd _ Hsd Had) as [Hfield Hget].
    split.
    + intros d ds Hin. unfold match_condition.
      cbn [String.eqb Ascii.eqb Bool.eqb]. rewrite Hfield. cbn [bind].
      unfold has_operator, dict_mem, ODict.mem. fold (dict_get d "$in").
      rewrite Hin, Hget. unfold py_getitem at 1. rewrite Hin. cbn [bind py_iter].
      now rewrite any_in_list.
    + intros s. unfold match_condition.
      cbn [String.eqb Ascii.eqb Bool.eqb]. rewrite Hfield. cbn [bind has_operator].
      now rewrite Hget.
  - intros Hmiss condition. unfold match_condition, schedule_field.
    cbn [String.eqb Ascii.eqb Bool.eqb].
    destruct Hmiss as [->|(sd & -> & Hnone)]; [reflexivity|].
    cbn [py_contains]. unfold dict_mem, ODict.mem. fold (dict_get sd "days").
    now rewrite Hnone.
Qed.

Lemma days_conditions_witness :
  match_condition
    [("schedule_details", VDict [("days", VList [VStr "Monday"; VStr "Friday"])])]
    "schedule_details.days" (VDict [("$in", VList [VStr "Sunday"; VStr "Friday"])])
  = Ok true.
Proof.
  destruct (days_conditions
              [("schedule_details",
                VDict [("days", VList [VStr "Monday"; VStr "Friday"])])])
    as [Hpresent _].
  destruct (Hpresent [VStr "Monday"; VStr "Friday"] eq_refl) as [Hin _].
  exact (Hin [("$in", VList [VStr "Sunday"; VStr "Friday"])]
             [VStr "Sunday"; VStr "Friday"] eq_refl).
Defined.

(** X12: on the three schedule paths a condition that is neither a string
    nor a dict with the operator of that path ([$in], [$gte], [$lte]) is
    not evaluated at all: it holds of every record that has the field.
    So [{"schedule_details.start_time": {"$lte": "10:00"}}] filters
    nothing out among records with a start time. *)
Theorem wrong_operator_is_ignored (body : dict) (field leaf op : string)
    (condition a : value) :
  In (field, leaf, op)
     [("schedule_details.days", "days", "$in");
      ("schedule_details.start_time", "start_time", "$gte");
      ("schedule_details.end_time", "end_time", "$lte")] ->
  schedule_time body leaf = Some a ->
  has_operator condition op = false ->
  (forall s, condition <> VStr s) ->
  match_condition body field condition = Ok true.
Proof.
  intros Hpath Ha Hop Hstr.
  destruct (schedule_time_inv body leaf _ Ha) as (sd & Hsd & Hleaf).
  destruct (schedule_field_present body leaf sd _ Hsd Hleaf) as [Hfield Hget].
  destruct Hpath as [[= <- <- <-]|[[= <- <- <-]|[[= <- <- <-]|[]]]];
    unfold match_condition; cbn [String.eqb Ascii.eqb Bool.eqb];
    rewrite Hfield; cbn [bind]; rewrite ?Hget; cbn [bind]; rewrite Hop;
    (destruct condition as [| | |s| |]; try reflexivity; now destruct (Hstr s)).
Qed.

Lemma wrong_operator_is_ignored_witness :
  match_condition
    [("schedule_details", VDict [("start_time", VStr "15:15")])]
    "schedule_details.start_time" (VDict [("$lte", VStr "10:00")])
  = Ok true.
Proof.
  apply (wrong_operator_is_ignored
           [("schedule_details", VDict [("start_time", VStr "15:15")])]
           "schedule_details.start_time" "start_time" "$gte"
           (VDict [("$lte", VStr "10:00")]) (VStr "15:15")).
  - right. left. reflexivity.
  - reflexivity.
  - reflexivity.
  - discriminate.
Defined.

(** X13: the conditions of a query are tried in the order the query lists
    them and the first one that does not hold decides: its outcome,
    [False] or an exception, is the outcome of [_matches_query], and the
    conditions after it are not looked at. *)
Theorem matches_query_stops_at_first_failure (body q1 q2 : dict)
    (field : string) (condition : value) (r : result bool) :
  (forall f c, In (f, c) q1 -> match_condition body f c = Ok true) ->
  match_condition body field condition = r ->
  r <> Ok true ->
  _matches_query body (VDict (q1 ++ (field, condition) :: q2)) = r.
Proof.
  intros Hq1 Hr Hne. cbn [_matches_query].
  induction q1 as [|[f c] q1 IH]; cbn [app matches_loop].
  - rewrite Hr. destruct r as [[|]|e]; [contradiction|reflexivity..].
  - rewrite (Hq1 f c) by (left; reflexivity). cbn [bind].
    apply IH. intros f' c' Hin. apply Hq1. now right.
Qed.

Lemma matches_query_stops_at_first_failure_witness :
  _matches_query sample_body
    (VDict ([("max_participants", VInt 12)] ++
            ("schedule_details.days", VStr "Monday") ::
            [("schedule_details.start_time", VInt 3)]))
  = Ok false.
Proof.
  apply (matches_query_stops_at_first_failure sample_body
           [("max_participants", VInt 12)]
           [("schedule_details.start_time", VInt 3)]
           "schedule_details.days" (VStr "Monday") (Ok false)).
  - intros f c [[= <- <-]|[]]. reflexivity.
  - reflexivity.
  - discriminate.
Defined.

(** ** find and find_one *)

Section find_facts.
Implicit Types (h : heap) (items : list (value * loc)) (rs : list dict).


Lemma find_all_In h items : forall rs key l body,
  find_all h items = Ok rs -> In (key, l) items -> h !! l = Some body ->
  In (with_id key body) rs.
Proof.
  induction items as [|[key0 l0] items IH]; intros rs key l body;
    cbn [find_all]; [intros _ []|].
  unfold deref. destruct (h !! l0) as [body0|] eqn:Hl0; [|discriminate].
  cbn [bind]. destruct (find_all h items) as [tl|e]; [|discriminate].
  cbn [bind]. intros [= <-] [[= -> ->]|Hin] Hl.
  - rewrite Hl0 in Hl. injection Hl as ->. now left.
  - right. now apply (IH tl key l body).
Qed.

Lemma data_get_string_In items s l :
  ODict.get py_eq items (VStr s) = Some l -> In (VStr s, l) items.
Proof.
  induction items as [|[k' l'] items IH]; simpl; [discriminate|].
  destruct (py_eq k' (VStr s)) eqn:E.
  - intros [= ->]. apply py_eq_string_key in E. subst k'. now left.
  - intros H. right. now apply IH.
Qed.
End find_facts.



(** X15: [find_one] and [find] agree: a record that [find_one] returns
    for a string key is among the records [find] without a query
    yields. *)
Theorem find_one_agrees_with_find (h : heap) (c : MockCollection)
    (s : string) (r : dict) (rs : list dict) :
  find_one h c (by_id (VStr s)) = Ok (Some r) ->
  find h c VNone = Ok rs ->
  In r rs.
Proof.
  unfold find_one, by_id, data_get, find.
  cbn [dict_get ODict.get String.eqb Ascii.eqb Bool.eqb hashable bind].
  destruct (ODict.get py_eq (_data c) (VStr s)) as [l|] eqn:Hget;
    [|discriminate].
  unfold deref. destruct (h !! l) as [body|] eqn:Hl; [|discriminate].
  cbn [bind]. intros [= <-] Hall.
  apply (find_all_In h (_data c) rs (VStr s) l body Hall); [|exact Hl].
  now apply data_get_string_In.
Qed.

Lemma find_one_agrees_with_find_witness :
  In (with_id (VStr "Chess Club") sample_body)
     [with_id (VStr "Chess Club") sample_body].
Proof.
  apply (find_one_agrees_with_find sample_heap sample_collection
           "Chess Club" (with_id (VStr "Chess Club") sample_body)
           [with_id (VStr "Chess Club") sample_body]); reflexivity.
Defined.

(** ** init_database *)

Section seeding_facts.
Implicit Types (h : heap) (c : MockCollection) (data : list (value * loc))
  (recs : list (value * dict)) (k : value) (body : dict).

Lemma distinct_NoDup (ks : list string) : distinct ks = true -> List.NoDup ks.
Proof.
  induction ks as [|k ks IH]; simpl; [constructor|].
  intros H. apply andb_prop in H as [Hk Hks]. constructor; [|now apply IH].
  intros Hin. apply negb_true_iff in Hk.
  assert (Hex : existsb (String.eqb k) ks = true).
  { apply existsb_exists. exists k. split; [exact Hin|apply String.eqb_refl]. }
  congruence.
Qed.

Lemma dict_pop_absent body f : dict_get body f = None -> dict_pop body f = body.
Proof.
  unfold dict_get, dict_pop.
  induction body as [|[k' v'] body IH]; simpl; [reflexivity|].
  destruct (String.eqb k' f); [discriminate|]. intros H. now rewrite IH.
Qed.

Lemma plain_document_with_id k body :
  plain_document body = true ->
  with_id k body = ("_id", k) :: body /\
  dict_pop (("_id", k) :: body) "_id" = body.
Proof.
  unfold plain_document, dict_mem, ODict.mem. fold (dict_get body "_id").
  intros H. apply andb_prop in H as [Hnd Hid].
  destruct (dict_get body "_id") eqn:E; [discriminate|]. split.
  - apply with_id_cons; [now apply distinct_NoDup|exact E].
  - change (dict_pop (("_id", k) :: body) "_id") with (dict_pop body "_id").
    now apply dict_pop_absent.
Qed.

Lemma alloc_fresh h : h !! fresh (dom h) = None.
Proof. apply not_elem_of_dom. apply is_fresh. Qed.

Lemma stored_keys h data recs : stored h data recs -> map fst data = map fst recs.
Proof.
  induction 1 as [|[k l] [k' b] data recs [Hk _] _ IH]; simpl; [reflexivity|].
  simpl in Hk. now rewrite Hk, IH.
Qed.

(** Writing to a location that held nothing disturbs no stored record. *)
Lemma stored_insert_fresh h data recs l body :
  stored h data recs -> h !! l = None -> stored (<[l := body]> h) data recs.
Proof.
  intros Hst Hl. induction Hst as [|[k0 l0] [k1 b1] data recs [Hk Hb] _ IH];
    constructor; [|exact IH].
  split; [exact Hk|]. simpl in *.
  rewrite lookup_insert_ne; [exact Hb|]. intros ->. congruence.
Qed.

Lemma fresh_key_absent data k :
  forallb (fun k' => negb (py_eq k' k)) (map fst data) = true ->
  ODict.get py_eq data k = None.
Proof.
  induction data as [|[k' l'] data IH]; simpl; [reflexivity|].
  intros H. apply andb_prop in H as [Hk Hrest].
  apply negb_true_iff in Hk. rewrite Hk. now apply IH.
Qed.

(** One turn of a seeding loop: a new dict [{"_id": k, **body}] is made and
    inserted under a key the collection does not have. *)
Lemma insert_fresh_document h c recs k body :
  stored h (_data c) recs ->
  forallb (fun k' => negb (py_eq k' k)) (map fst (_data c)) = true ->
  hashable k = true ->
  plain_document body = true ->
  exists h' c',
    insert_one (snd (alloc h (with_id k body))) c (fst (alloc h (with_id k body)))
    = (Ok {| acknowledged := true |}, h', c') /\
    stored h' (_data c') (recs ++ [(k, body)]) /\
    (forall l b, h !! l = Some b -> h' !! l = Some b).
Proof.
  intros Hst Hfresh Hk Hplain.
  destruct (plain_document_with_id k body Hplain) as [Hdoc Hpop].
  unfold alloc. cbn [fst snd]. set (l := fresh (dom h)).
  assert (Hl : h !! l = None) by apply alloc_fresh.
  rewrite (insert_one_present (<[l := with_id k body]> h) c l (with_id k body) k);
    [|apply lookup_insert_eq|rewrite Hdoc; reflexivity|exact Hk].
  eexists _, _. split; [reflexivity|].
  rewrite insert_insert_eq, Hdoc, Hpop. cbn [_data].
  rewrite data_set_absent by now apply fresh_key_absent.
  split.
  - apply Forall2_app.
    + now apply stored_insert_fresh.
    + constructor; [|constructor]. split; [reflexivity|apply lookup_insert_eq].
  - intros l0 b Hb. rewrite lookup_insert_ne; [exact Hb|]. intros <-. congruence.
Qed.
End seeding_facts.

Section seeding_loops.
Implicit Types (h : heap) (c : MockCollection) (recs : list (value * dict)).

Lemma stored_frame h h' data recs :
  stored h data recs ->
  (forall l b, h !! l = Some b -> h' !! l = Some b) ->
  stored h' data recs.
Proof.
  intros Hst Hframe.
  induction Hst as [|[k0 l0] [k1 b1] data recs [Hk Hb] _ IH];
    constructor; [|exact IH].
  split; [exact Hk|]. now apply Hframe.
Qed.

Lemma insert_activities_stored (items : list (string * dict)) : forall h c recs,
  stored h (_data c) recs ->
  fresh_keys (map fst (_data c)) (map (fun kv => VStr (fst kv)) items) = true ->
  forallb (fun kv => plain_document (snd kv)) items = true ->
  exists h' c',
    insert_activities h c items = (Ok tt, h', c') /\
    stored h' (_data c') (recs ++ map (fun kv => (VStr (fst kv), snd kv)) items) /\
    (forall l b, h !! l = Some b -> h' !! l = Some b).
Proof.
  induction items as [|[name details] items IH]; intros h c recs Hst Hkeys Hplain.
  - exists h, c. rewrite app_nil_r. auto.
  - cbn [map fresh_keys fst snd forallb] in Hkeys, Hplain.
    apply andb_prop in Hkeys as [Hnew Hkeys].
    apply andb_prop in Hplain as [Hdoc Hplain].
    destruct (insert_fresh_document h c recs (VStr name) details Hst Hnew eq_refl Hdoc)
      as (h1 & c1 & Hins & Hst1 & Hframe1).
    cbn [insert_activities].
    destruct (alloc h (with_id (VStr name) details)) as [document h0].
    cbn [fst snd] in Hins. rewrite Hins.
    destruct (IH h1 c1 (recs ++ [(VStr name, details)]) Hst1) as
      (h' & c' & Hrun & Hst' & Hframe'); [|exact Hplain|].
    { rewrite (stored_keys _ _ _ Hst1), map_app.
      now rewrite <- (stored_keys _ _ _ Hst). }
    exists h', c'. split; [exact Hrun|]. split.
    + cbn [map fst snd]. now rewrite <- app_assoc in Hst'.
    + intros l b Hb. apply Hframe'. now apply Hframe1.
Qed.

Lemma insert_teachers_stored (items : list dict) : forall h c recs,
  stored h (_data c) recs ->
  fresh_keys (map fst (_data c)) (map teacher_key items) = true ->
  forallb (fun t => dict_mem t "username" && hashable (teacher_key t)
                    && plain_document t) items = true ->
  exists h' c',
    insert_teachers h c items = (Ok tt, h', c') /\
    stored h' (_data c') (recs ++ map (fun t => (teacher_key t, t)) items) /\
    (forall l b, h !! l = Some b -> h' !! l = Some b).
Proof.
  induction items as [|teacher items IH]; intros h c recs Hst Hkeys Hplain.
  - exists h, c. rewrite app_nil_r. auto.
  - cbn [map fresh_keys forallb] in Hkeys, Hplain.
    apply andb_prop in Hkeys as [Hnew Hkeys].
    apply andb_prop in Hplain as [Hdoc Hplain].
    apply andb_prop in Hdoc as [Hdoc Hpl].
    apply andb_prop in Hdoc as [Hmem Hhash].
    assert (Hget : py_getitem (VDict teacher) "username" = Ok (teacher_key teacher)).
    { unfold py_getitem, teacher_key. unfold dict_mem, ODict.mem in Hmem.
      fold (dict_get teacher "username") in Hmem.
      now destruct (dict_get teacher "username"). }
    destruct (insert_fresh_document h c recs (teacher_key teacher) teacher
                Hst Hnew Hhash Hpl)
      as (h1 & c1 & Hins & Hst1 & Hframe1).
    cbn [insert_teachers]. rewrite Hget.
    destruct (alloc h (with_id (teacher_key teacher) teacher)) as [document h0].
    cbn [fst snd] in Hins. rewrite Hins.
    destruct (IH h1 c1 (recs ++ [(teacher_key teacher, teacher)]) Hst1) as
      (h' & c' & Hrun & Hst' & Hframe'); [|exact Hplain|].
    { rewrite (stored_keys _ _ _ Hst1), map_app.
      now rewrite <- (stored_keys _ _ _ Hst). }
    exists h', c'. split; [exact Hrun|]. split.
    + cbn [map]. now rewrite <- app_assoc in Hst'.
    + intros l b Hb. apply Hframe'. now apply Hframe1.
Qed.

Lemma find_all_stored h data recs :
  stored h data recs ->
  find_all h data = Ok (map (fun kb => with_id (fst kb) (snd kb)) recs).
Proof.
  induction 1 as [|[k l] [k' b] data recs [Hk Hb] _ IH]; cbn [find_all map];
    [reflexivity|].
  simpl in Hk, Hb. subst k'. unfold deref. rewrite Hb. cbn [bind].
  now rewrite IH.
Qed.
End seeding_loops.

Section init_database_facts.
Variable hash_password : string -> string.
Implicit Types (h : heap) (c : MockCollection) (w : world).

Lemma count_zero_empty c query :
  Z.eqb (count_documents c query) 0 = true <-> _data c = [].
Proof.
  unfold count_documents. destruct (_data c); simpl; split;
    try reflexivity; try discriminate.
Qed.

Lemma seed_activities_when_empty h c :
  exists h' c',
    (if Z.eqb (count_documents c (VDict [])) 0
     then insert_activities h c initial_activities
     else (Ok tt, h, c)) = (Ok tt, h', c') /\
    (forall l b, h !! l = Some b -> h' !! l = Some b) /\
    (_data c = [] -> stored h' (_data c') activity_records) /\
    (_data c <> [] -> h' = h /\ c' = c).
Proof.
  destruct (Z.eqb (count_documents c (VDict [])) 0) eqn:E.
  - apply count_zero_empty in E.
    destruct (insert_activities_stored initial_activities h c [])
      as (h' & c' & Hrun & Hst & Hframe).
    + rewrite E. constructor.
    + rewrite E. reflexivity.
    + reflexivity.
    + exists h', c'. split; [exact Hrun|]. split; [exact Hframe|].
      split; [intros _; exact Hst|]. intros Hne. contradiction.
  - exists h, c. split; [reflexivity|]. split; [auto|]. split; [|auto].
    intros Hempty. apply (count_zero_empty c (VDict [])) in Hempty. congruence.
Qed.

Lemma seed_teachers_when_empty h c :
  exists h' c',
    (if Z.eqb (count_documents c (VDict [])) 0
     then insert_teachers h c (initial_teachers hash_password)
     else (Ok tt, h, c)) = (Ok tt, h', c') /\
    (forall l b, h !! l = Some b -> h' !! l = Some b) /\
    (_data c = [] -> stored h' (_data c') (teacher_records hash_password)) /\
    (_data c <> [] -> h' = h /\ c' = c).
Proof.
  destruct (Z.eqb (count_documents c (VDict [])) 0) eqn:E.
  - apply count_zero_empty in E.
    destruct (insert_teachers_stored (initial_teachers hash_password) h c [])
      as (h' & c' & Hrun & Hst & Hframe).
    + rewrite E. constructor.
    + rewrite E. reflexivity.
    + reflexivity.
    + exists h', c'. split; [exact Hrun|]. split; [exact Hframe|].
      split; [intros _; exact Hst|]. intros Hne. contradiction.
  - exists h, c. split; [reflexivity|]. split; [auto|]. split; [|auto].
    intros Hempty. apply (count_zero_empty c (VDict [])) in Hempty. congruence.
Qed.

(** The [try] block on any world: it never raises, seeds the collections
    that are empty and leaves the others and every older object alone. *)
Lemma init_database_try_runs w :
  exists w',
    init_database_try hash_password w = (Ok tt, w') /\
    (forall l b, objects w !! l = Some b -> objects w' !! l = Some b) /\
    (_data (activities_collection w) = [] ->
     stored (objects w') (_data (activities_collection w')) activity_records) /\
    (_data (teachers_collection w) = [] ->
     stored (objects w') (_data (teachers_collection w'))
       (teacher_records hash_password)) /\
    (_data (activities_collection w) <> [] ->
     activities_collection w' = activities_collection w) /\
    (_data (teachers_collection w) <> [] ->
     teachers_collection w' = teachers_collection w) /\
    (_data (activities_collection w) <> [] ->
     _data (teachers_collection w) <> [] -> w' = w).
Proof.
  destruct w as [h acts teach]. unfold init_database_try. cbn [objects
    activities_collection teachers_collection].
  destruct (seed_activities_when_empty h acts)
    as (h1 & acts' & -> & Hframe1 & Hst1 & Hkeep1).
  destruct (seed_teachers_when_empty h1 teach)
    as (h2 & teach' & -> & Hframe2 & Hst2 & Hkeep2).
  eexists. split; [reflexivity|].
  cbn [objects activities_collection teachers_collection].
  split; [|split; [|split; [|split; [|split]]]].
  - intros l b Hb. apply Hframe2. now apply Hframe1.
  - intros Hempty. apply (stored_frame h1); [now apply Hst1|exact Hframe2].
  - exact Hst2.
  - intros Hne. now destruct (Hkeep1 Hne).
  - intros Hne. now destruct (Hkeep2 Hne).
  - intros Hne1 Hne2. destruct (Hkeep1 Hne1) as [-> ->].
    destruct (Hkeep2 Hne2) as [-> ->]. reflexivity.
Qed.
End init_database_facts.

(** X16: with mock collections the [try] block of [init_database] cannot
    raise, so the [except] handler never runs: on every world
    [init_database] is its [try] block.  It keeps every object that was on
    the heap, and a collection that already holds a record is left as it
    is, seed records or not. *)
Theorem init_database_never_reaches_handler (hash_password : string -> string)
    (w : world) :
  exists w',
    init_database_try hash_password w = (Ok tt, w') /\
    init_database hash_password w = (Ok tt, w') /\
    (forall l b, objects w !! l = Some b -> objects w' !! l = Some b) /\
    (_data (activities_collection w) <> [] ->
     activities_collection w' = activities_collection w) /\
    (_data (teachers_collection w) <> [] ->
     teachers_collection w' = teachers_collection w).
Proof.
  destruct (init_database_try_runs hash_password w)
    as (w' & Hrun & Hframe & _ & _ & Hacts & Hteach & _).
  exists w'. split; [exact Hrun|]. split; [|auto].
  unfold init_database. now rewrite Hrun.
Qed.

(** X17: start-up seeding is idempotent.  From any world, a second run
    of [init_database] changes nothing: after the first run both
    collections hold records, and collections that hold records are
    skipped. *)
Theorem init_database_idempotent (hash_password : string -> string) (w : world) :
  exists w1,
    init_database hash_password w = (Ok tt, w1) /\
    init_database hash_password w1 = (Ok tt, w1).
Proof.
  destruct (init_database_try_runs hash_password w)
    as (w1 & Hrun & _ & Hsa & Hst & Hka & Hkt & _).
  assert (Ha1 : _data (activities_collection w1) <> []).
  { destruct (_data (activities_collection w)) eqn:E.
    - specialize (Hsa eq_refl). apply Forall2_length in Hsa.
      intros Hnil. rewrite Hnil in Hsa. discriminate.
    - rewrite Hka, E; discriminate. }
  assert (Ht1 : _data (teachers_collection w1) <> []).
  { destruct (_data (teachers_collection w)) eqn:E.
    - specialize (Hst eq_refl). apply Forall2_length in Hst.
      intros Hnil. rewrite Hnil in Hst. discriminate.
    - rewrite Hkt, E; discriminate. }
  exists w1. split.
  - unfold init_database. now rewrite Hrun.
  - destruct (init_database_try_runs hash_password w1)
      as (w2 & Hrun2 & _ & _ & _ & _ & _ & Hsame).
    unfold init_database. rewrite Hrun2. now rewrite (Hsame Ha1 Ht1).
Qed.

(** X18: seeding does not depend on what else lives on the heap.  On any
    world whose two collections are empty, [init_database] succeeds;
    [find] on the activities collection then yields 13 records whose
    identifiers are the seed names in seed order, [find] on the teachers
    collection yields the 3 seed teachers, each with its key as ["_id"]
    and with its [username] field, and [count_documents] returns 13 and
    3. *)
Theorem init_database_seeds_empty_collections (hash_password : string -> string)
    (w : world) (query : value) :
  _data (activities_collection w) = [] ->
  _data (teachers_collection w) = [] ->
  exists w' rs,
    init_database hash_password w = (Ok tt, w') /\
    find (objects w') (activities_collection w') VNone = Ok rs /\
    map (fun r => dict_get r "_id") rs
    = map (fun kv => Some (VStr (fst kv))) initial_activities /\
    find (objects w') (teachers_collection w') VNone
    = Ok (map (fun teacher => ("_id", teacher_key teacher) :: teacher)
              (initial_teachers hash_password)) /\
    count_documents (activities_collection w') query = 13 /\
    count_documents (teachers_collection w') query = 3.
Proof.
  intros Ha Ht.
  destruct (init_database_try_runs hash_password w)
    as (w' & Hrun & _ & Hsa & Hst & _).
  specialize (Hsa Ha). specialize (Hst Ht).
  exists w'. eexists.
  split; [unfold init_database; now rewrite Hrun|].
  unfold find, count_documents. split; [|split; [|split; [|split]]].
  - apply (find_all_stored _ _ _ Hsa).
  - reflexivity.
  - rewrite (find_all_stored _ _ _ Hst). reflexivity.
  - apply Forall2_length in Hsa. rewrite Hsa. reflexivity.
  - apply Forall2_length in Hst. rewrite Hst. reflexivity.
Qed.

Lemma init_database_seeds_empty_collections_witness :
  exists w',
    init_database (fun s => s)
      {| objects := sample_heap;
         activities_collection := {| _data := [] |};
         teachers_collection := {| _data := [] |} |} = (Ok tt, w') /\
    count_documents (activities_collection w') VNone = 13 /\
    count_documents (teachers_collection w') VNone = 3.
Proof.
  destruct (init_database_seeds_empty_collections (fun s => s)
              {| objects := sample_heap;
                 activities_collection := {| _data := [] |};
                 teachers_collection := {| _data := [] |} |} VNone
              eq_refl eq_refl)
    as (w' & rs & Hrun & _ & _ & _ & Hacts & Hteach).
  exists w'. repeat split; assumption.
Defined.

Section handler_facts.
Variable hash_password : string -> string.
Implicit Types (h : heap) (recs : list (value * dict)).


End handler_facts.


(** ** One document under two keys *)

Lemma py_eq_sym_hashable (a b : value) :
  hashable a = true -> hashable b = true -> py_eq a b = py_eq b a.
Proof.
  destruct a, b; simpl; intros; try discriminate; try reflexivity;
    try apply Z.eqb_sym; try apply String.eqb_sym.
Qed.

Lemma dict_pop_set (body : dict) (f : string) (v : value) :
  dict_pop (dict_set body f v) f = dict_pop body f.
Proof.
  unfold dict_pop, dict_set.
  induction body as [|[k' v'] body IH]; simpl.
  - now rewrite String.eqb_refl.
  - destruct (String.eqb k' f) eqn:E; simpl; rewrite E; [reflexivity|].
    now rewrite IH.
Qed.

(** X20: a caller that gives its document a new ["_id"] after an insert
    and inserts it again ends up with two keys for one body, since
    [insert_one] stores the object and not a copy: a [$push] through the
    first key then shows in the record read through the second. *)
Theorem one_document_under_two_keys (h : heap) (c : MockCollection)
    (document : loc) (d : dict) (k1 k2 : value) :
  h !! document = Some d ->
  dict_get d "_id" = Some k1 ->
  hashable k1 = true ->
  hashable k2 = true ->
  py_eq k1 k2 = false ->
  exists h1 c1 h2 c2,
    insert_one h c document = (Ok {| acknowledged := true |}, h1, c1) /\
    insert_one (<[document := dict_set (dict_pop d "_id") "_id" k2]> h1) c1 document
    = (Ok {| acknowledged := true |}, h2, c2) /\
    data_get c2 k1 = Ok (Some document) /\
    data_get c2 k2 = Ok (Some document) /\
    forall f v,
      dict_get (dict_pop d "_id") f = None ->
      find_one (snd (update_one h2 c2 (by_id k1) (push_update f v))) c2 (by_id k2)
      = Ok (Some (with_id k2 (dict_set (dict_pop d "_id") f (VList [v])))).
Proof.
  intros Hd Hk1 Hh1 Hh2 Hne.
  set (body := dict_pop d "_id").
  assert (Hbody : dict_pop (dict_set body "_id" k2) "_id" = body).
  { rewrite dict_pop_set. apply dict_pop_absent. apply dict_get_pop_eq. }
  eexists _, _, _, _.
  split; [exact (insert_one_present h c document d k1 Hd Hk1 Hh1)|].
  split.
  { apply (insert_one_present _ _ document (dict_set body "_id" k2) k2);
      [apply lookup_insert_eq|apply dict_get_set_eq|exact Hh2]. }
  cbn [_data]. rewrite Hbody.
  assert (Hget1 : data_get
            {| _data := ODict.set py_eq (ODict.set py_eq (_data c) k1 document)
                          k2 document |} k1 = Ok (Some document)).
  { unfold data_get. rewrite Hh1. cbn [_data]. f_equal.
    rewrite data_get_set_other;
      [|assumption..|now rewrite py_eq_sym_hashable].
    pose proof (data_get_set (_data c) k1 document Hh1) as H.
    unfold data_get in H. rewrite Hh1 in H. cbn [_data] in H. congruence. }
  split; [exact Hget1|]. split; [now apply data_get_set|].
  intros f v Hf.
  rewrite (update_one_existing _ _ [("_id", k1)] k1 document body);
    [|reflexivity|exact Hget1|apply lookup_insert_eq].
  rewrite apply_push. fold body in Hf. rewrite Hf. cbn [fst snd].
  unfold find_one, by_id. cbn [dict_get ODict.get].
  rewrite String.eqb_refl, data_get_set by exact Hh2. cbn [bind].
  unfold deref. now rewrite lookup_insert_eq.
Qed.

Lemma one_document_under_two_keys_witness :
  exists h1 c1 h2 c2,
    insert_one {[ 0%nat := [("_id", VStr "a"); ("name", VStr "x")] ]}
      {| _data := [] |} 0%nat
    = (Ok {| acknowledged := true |}, h1, c1) /\
    insert_one
      (<[0%nat := dict_set (dict_pop [("_id", VStr "a"); ("name", VStr "x")] "_id")
                    "_id" (VStr "b")]> h1) c1 0%nat
    = (Ok {| acknowledged := true |}, h2, c2) /\
    data_get c2 (VStr "a") = Ok (Some 0%nat) /\
    data_get c2 (VStr "b") = Ok (Some 0%nat).
Proof.
  destruct (one_document_under_two_keys
              {[ 0%nat := [("_id", VStr "a"); ("name", VStr "x")] ]}
              {| _data := [] |} 0%nat
              [("_id", VStr "a"); ("name", VStr "x")] (VStr "a") (VStr "b"))
    as (h1 & c1 & h2 & c2 & H1 & H2 & Ha & Hb & _); [reflexivity..|].
  exists h1, c1, h2, c2. repeat split; assumption.
Defined.
